(** * NIHIA host-side protocol encoder (nihia.py)

    A shallow embedding of [src/Native Instruments/nihia.py]: the button
    table, the short control frames built by [dataOut], the OLED text frames
    built by [KPrntScrn] and the mixer reports built by [mixerSendInfo],
    together with the part of Python's run-time behaviour these functions
    rely on ([dict.get], [bytes]/[bytearray] conversion of a list,
    list indexing, [str.encode("UTF-8")]). *)

From Stdlib Require Import ZArith NArith List Lia Ascii String.
From stdpp Require Import base option list strings gmap fin_maps.
From Equations Require Import Equations.

Local Open Scope string_scope.
Local Open Scope list_scope.
Local Open Scope Z_scope.

(** ** Python values, exceptions and the effect of a call *)

(** The values that end up in the lists handed to [bytes]/[bytearray]:
    integers, [None] (what [dict.get] returns on a miss) and the
    two-element lists stored in [buttons] for the encoder motion events. *)
Inductive pyval : Type :=
  | PyInt (z : Z)
  | PyNone
  | PyList (l : list Z).

(** The exceptions the modelled operations can raise. *)
Inductive exn : Type :=
  | TypeError
  | ValueError
  | IndexError
  | UnicodeEncodeError.

Inductive result (A : Type) : Type :=
  | Ok (a : A)
  | Raise (e : exn).
Arguments Ok {A} a.
Arguments Raise {A} e.

#[global] Instance result_ret : MRet result := λ A a, Ok a.
#[global] Instance result_bind : MBind result := λ A B f r,
  match r with
  | Ok a => f a
  | Raise e => Raise e
  end.

(** A sysex message is the sequence of its bytes; the device is observed
    through the sequence of messages it has been sent, oldest first. *)
Abbreviation frame := (list Z).
Abbreviation sink := (list (list Z)).

(** A call runs against the messages sent so far and either returns or
    raises; what was sent before an exception stays sent. *)
Definition py (A : Type) : Type := sink → result A * sink.

#[global] Instance py_ret : MRet py := λ A a s, (Ok a, s).
#[global] Instance py_bind : MBind py := λ A B f m s,
  match m s with
  | (Ok a, s') => f a s'
  | (Raise e, s') => (Raise e, s')
  end.

(** A pure computation that may raise, run inside a call. *)
Definition lift {A} (r : result A) : py A := λ s, (r, s).

(** The frames a call hands to the device, given what was sent before. *)
Definition sent {A} (m : py A) (s : sink) : sink := (m s).2.

(** ** Python built-ins *)

(** [d.get(k)]: the value stored under [k], [None] when there is none. *)
Definition dict_get `{Countable K} (d : gmap K pyval) (k : K) : pyval :=
  default PyNone (d !! k).

(** One element of the iterable given to [bytes]: anything that is not an
    integer is a [TypeError], an integer outside [range(256)] a
    [ValueError]. *)
Definition byte_of (v : pyval) : result Z :=
  match v with
  | PyInt z => if decide (0 ≤ z ≤ 255) then Ok z else Raise ValueError
  | PyNone => Raise TypeError
  | PyList _ => Raise TypeError
  end.

(** [bytes(l)] for a list [l]: elements are converted left to right and the
    first offending element decides the exception. *)
Fixpoint bytes (l : list pyval) : result frame :=
  match l with
  | [] => Ok []
  | v :: l' =>
      match byte_of v with
      | Ok b => match bytes l' with
                | Ok bs => Ok (b :: bs)
                | Raise e => Raise e
                end
      | Raise e => Raise e
      end
  end.

(** [bytearray(l)] converts a list exactly as [bytes(l)] does, and
    [bytes(b)] of a bytearray copies it. *)
Definition bytearray (l : list pyval) : result frame := bytes l.
Definition bytes_of_bytearray (b : frame) : frame := b.

(** [ord(c)]: a character is its code point. *)
Abbreviation char := N.
Abbreviation str := (list N).
Definition ord (c : char) : Z := Z.of_N c.

(** [s.encode("UTF-8")] on one character: one to four bytes by the size of
    the code point; a surrogate has no encoding.  Python characters stop at
    0x10FFFF, so the lead byte of the four-byte form carries three bits. *)
Definition encode_utf8_char (c : char) : result frame :=
  let z := ord c in
  if decide (z < 0x80) then Ok [z]
  else if decide (z < 0x800) then
    Ok [Z.lor 0xC0 (Z.shiftr z 6); Z.lor 0x80 (Z.land z 0x3F)]
  else if decide (z < 0x10000) then
    if decide (0xD800 ≤ z ≤ 0xDFFF) then Raise UnicodeEncodeError
    else Ok [Z.lor 0xE0 (Z.shiftr z 12);
             Z.lor 0x80 (Z.land (Z.shiftr z 6) 0x3F);
             Z.lor 0x80 (Z.land z 0x3F)]
  else
    Ok [Z.lor 0xF0 (Z.land (Z.shiftr z 18) 0x07);
        Z.lor 0x80 (Z.land (Z.shiftr z 12) 0x3F);
        Z.lor 0x80 (Z.land (Z.shiftr z 6) 0x3F);
        Z.lor 0x80 (Z.land z 0x3F)].

Fixpoint encode_utf8 (s : str) : result frame :=
  match s with
  | [] => Ok []
  | c :: s' =>
      match encode_utf8_char c with
      | Ok bs => match encode_utf8 s' with
                 | Ok bs' => Ok (bs ++ bs')
                 | Raise e => Raise e
                 end
      | Raise e => Raise e
      end
  end.

(** A string literal as a Python [str] (one character per byte of the
    literal, so code points up to 255). *)
Definition str_of (s : string) : str :=
  (λ a, N_of_ascii a) <$> list_ascii_of_string s.

(** ** The host API: [device.midiOutSysex] *)

Module device.

(** Hands one message to the MIDI port. *)
Definition midiOutSysex (msg : frame) : py unit := λ s, (Ok (), s ++ [msg]).

End device.

(** ** nihia.py *)

Definition buttons : gmap string pyval :=
  list_to_map
    [ ("PLAY", PyInt 16);
      ("RESTART", PyInt 17);
      ("REC", PyInt 18);
      ("COUNT_IN", PyInt 19);
      ("STOP", PyInt 20);
      ("CLEAR", PyInt 21);
      ("LOOP", PyInt 22);
      ("METRO", PyInt 23);
      ("TEMPO", PyInt 24);
      ("UNDO", PyInt 32);
      ("REDO", PyInt 33);
      ("QUANTIZE", PyInt 34);
      ("AUTO", PyInt 35);
      ("MUTE", PyInt 67);
      ("SOLO", PyInt 68);
      ("ENCODER_BUTTON", PyInt 96);
      ("SHIFT+ENCODER_BUTTON", PyInt 97);
      ("ENCODER_RIGHT", PyList [50; 1]);
      ("ENCODER_LEFT", PyList [50; 127]);
      ("ENCODER_UP", PyList [48; 127]);
      ("ENCODER_DOWN", PyList [48; 1]);
      ("ENCODER_PLUS", PyList [52; 1]);
      ("ENCODER_MINUS", PyList [52; 127]);
      ("ENCODER_HORIZONTAL", PyInt 50);
      ("ENCODER_VERTICAL", PyInt 48);
      ("ENCODER_SPIN", PyInt 52) ].

Definition dataOut (data1 data2 : pyval) : py unit :=
  let convertmsg := [PyInt 240; PyInt 191; data1; data2] in
  msgtom32 ← lift (bytearray convertmsg);
  device.midiOutSysex (bytes_of_bytearray msgtom32).

Definition initiate : py unit := dataOut (PyInt 1) (PyInt 1).

Definition terminate : py unit := dataOut (PyInt 2) (PyInt 1).

Definition restartProtocol : py unit :=
  _ ← terminate;
  initiate.

Definition buttonSetLight (buttonName : string) (lightMode : Z) : py unit :=
  let lightModes : gmap Z pyval := {[ 0 := PyInt 0; 1 := PyInt 1 ]} in
  dataOut (dict_get buttons buttonName) (dict_get lightModes lightMode).

(** The two kinds of [while] loop of [KPrntScrn], both of the shape
    [while n < bound: dst.append(f(src[n])); n += 1], where [src[n]] raises
    [IndexError] past the end of [src].  [bound - n] decreases. *)
Equations? while_append {A} (f : A → Z) (src : list A) (bound n : nat)
    (dst : list Z) : result (list Z) by wf (bound - n)%nat lt :=
  while_append f src bound n dst with decide (n < bound)%nat => {
    | left _ with src !! n => {
        | Some x := while_append f src bound (S n) (dst ++ [f x]);
        | None := Raise IndexError };
    | right _ := Ok dst }.
Proof. lia. Qed.

Definition KPrntScrn (trkn : Z) (word : str) (delaytime : Z) : py unit :=
  let lettersh : list Z := [] in
  let header := [240; 0; 33; 9; 0; 0; 68; 67; 1; 0; 72; 0] in
  let n := 0%nat in
  let m := 0%nat in
  let letters := word in
  lettersh ← lift
    (if decide (length letters ≤ 10)%nat
     then while_append ord letters (length letters) n lettersh
     else while_append ord letters 11 n lettersh);
  let header := header ++ [trkn] in
  header ← lift (while_append id lettersh (length lettersh) m header);
  let header := header ++ [247] in
  msg ← lift (bytes (PyInt <$> header));
  device.midiOutSysex msg.

Definition mixerinfo_types : gmap string pyval :=
  list_to_map
    [ ("VOLUME", PyInt 70);
      ("PAN", PyInt 71);
      ("IS_MUTE", PyInt 67);
      ("IS_SOLO", PyInt 68);
      ("NAME", PyInt 72);
      ("EXIST", PyInt 64);
      ("SELECTED", PyInt 66) ].

(** The keyword arguments [mixerSendInfo] reads from [**kwargs]; a field
    is [None] when the caller did not pass that keyword. *)
Record kwargs : Type := Kwargs {
  kw_value : option Z;
  kw_info : option str
}.

Definition mixerSendInfo (info_type : string) (trackID : Z) (kw : kwargs)
    : py unit :=
  let value := default 0 (kw_value kw) in
  let info := kw_info kw in
  match info with
  | Some info =>
      info ← lift (encode_utf8 info);
      let msg :=
        [PyInt 240; PyInt 0; PyInt 33; PyInt 9; PyInt 0; PyInt 0; PyInt 68;
         PyInt 67; PyInt 1; PyInt 0; dict_get mixerinfo_types info_type;
         PyInt value; PyInt trackID] ++ (PyInt <$> info) ++ [PyInt 247] in
      msg ← lift (bytes msg);
      device.midiOutSysex msg
  | None =>
      msg ← lift (bytes
        [PyInt 240; PyInt 0; PyInt 33; PyInt 9; PyInt 0; PyInt 0; PyInt 68;
         PyInt 67; PyInt 1; PyInt 0; dict_get mixerinfo_types info_type;
         PyInt value; PyInt trackID; PyInt 247]);
      device.midiOutSysex msg
  end.

(** ** Vocabulary of the statements *)

(** A value that fits one byte of a message. *)
Definition is_byte (z : Z) : Prop := 0 ≤ z ≤ 255.

#[global] Instance is_byte_dec z : Decision (is_byte z).
Proof. unfold is_byte. apply _. Defined.

(** The characters of [word] that [KPrntScrn] keeps. *)
Definition retained (word : str) : str := take 11 word.

(** The fixed header of a display-text message. *)
Definition display_header : list Z :=
  [0xF0; 0x00; 0x21; 0x09; 0x00; 0x00; 0x44; 0x43; 0x01; 0x00; 0x48; 0x00].

(** The layout of a display-text message: fixed header, slot, one value
    per retained character, terminator. *)
Definition display_layout (trkn : Z) (word : str) : list Z :=
  display_header ++ [trkn] ++ (ord <$> retained word) ++ [0xF7].

(** A character that fits the one byte the display format gives it. *)
Definition latin1 (c : char) : Prop := ord c ≤ 255.

#[global] Instance latin1_dec c : Decision (latin1 c).
Proof. unfold latin1. apply _. Defined.

(** The six encoder motion events of [buttons]. *)
Definition encoder_motion_events : list string :=
  ["ENCODER_RIGHT"; "ENCODER_LEFT"; "ENCODER_UP"; "ENCODER_DOWN";
   "ENCODER_PLUS"; "ENCODER_MINUS"].

(** What an entry of [buttons] can be: a single data1 byte, or the
    [data1, data2] pair of an encoder motion event. *)
Definition button_entry (k : string) (v : pyval) : Prop :=
  match v with
  | PyInt z => is_byte z ∧ k ∉ encoder_motion_events
  | PyList l => k ∈ encoder_motion_events ∧ length l = 2%nat
  | PyNone => False
  end.

(** What an entry of [mixerinfo_types] is: an identifier byte. *)
Definition mixerinfo_entry (k : string) (v : pyval) : Prop :=
  match v with
  | PyInt z => is_byte z
  | _ => False
  end.

#[global] Instance button_entry_dec k v : Decision (button_entry k v).
Proof. destruct v; simpl; apply _. Defined.

#[global] Instance mixerinfo_entry_dec k v : Decision (mixerinfo_entry k v).
Proof. destruct v; simpl; apply _. Defined.

#[global] Instance pyval_eq_dec : EqDecision pyval.
Proof. solve_decision. Defined.

(** A dict literal in which no two keys share a value. *)
Definition distinct_values (l : list (string * pyval)) : Prop :=
  Forall (λ kv1, Forall (λ kv2, kv1.2 = kv2.2 → kv1.1 = kv2.1) l) l.

(** A message as the port takes it: bytes, the first of them 0xF0. *)
Definition frame_ok (f : frame) : Prop :=
  Forall is_byte f ∧ head f = Some 0xF0.

Definition sink_ok (s : sink) : Prop := Forall frame_ok s.

(** A call that leaves what was sent in place and adds only messages the
    port takes, whatever was sent before: the messages after the call are
    those before it followed by new ones, each made of bytes and starting
    with 0xF0. *)
Definition keeps_wire {A} (m : py A) : Prop :=
  ∀ s : sink, ∃ new : sink, sent m s = s ++ new ∧ sink_ok new.

#[global] Instance PyInt_inj : Inj (=) (=) PyInt.
Proof. by intros z1 z2 [= ->]. Qed.

(** The shape every sending function has: convert, then hand the bytes to
    the port; when the conversion raises, the port is not reached. *)
Definition send_converted (r : result frame) : py unit :=
  λ s, match r with
       | Ok msg => (Ok (), s ++ [msg])
       | Raise e => (Raise e, s)
       end.

(** A surrogate code point, the only kind of character UTF-8 refuses. *)
Definition surrogate (c : char) : Prop := 0xD800 ≤ ord c ≤ 0xDFFF.

#[global] Instance surrogate_dec c : Decision (surrogate c).
Proof. unfold surrogate. apply _. Defined.

(** UTF-8 as its definition tabulates it, by range of the code point and
    with division and remainder: one byte up to U+007F, two up to U+07FF,
    three up to U+FFFF, four beyond.  This is what a text is expected to
    look like on the wire; [encode_utf8] is compared with it.  (No
    character lies beyond U+10FFFF, where the remainder by 8 in the lead
    byte would start to matter.) *)
Definition utf8_bytes (c : char) : list Z :=
  let z := ord c in
  if decide (z ≤ 0x7F) then [z]
  else if decide (z ≤ 0x7FF) then [0xC0 + z / 64; 0x80 + z mod 64]
  else if decide (z ≤ 0xFFFF) then
    [0xE0 + z / 4096; 0x80 + z / 64 mod 64; 0x80 + z mod 64]
  else
    [0xF0 + z / 262144 mod 8; 0x80 + z / 4096 mod 64; 0x80 + z / 64 mod 64;
     0x80 + z mod 64].

(** A character of the 7-bit range, which UTF-8 encodes as itself. *)
Definition ascii7 (c : char) : Prop := ord c < 0x80.

#[global] Instance ascii7_dec c : Decision (ascii7 c).
Proof. unfold ascii7. apply _. Defined.

(** * Properties *)

(** ** The monad *)

Lemma bind_lift_ok {A B} (a : A) (k : A → py B) (s : sink) :
  (mbind k (lift (Ok a))) s = k a s.
Proof. reflexivity. Qed.

Lemma bind_lift_raise {A B} (e : exn) (k : A → py B) (s : sink) :
  (mbind k (lift (Raise e))) s = (Raise e, s).
Proof. reflexivity. Qed.

(** ** [bytes] *)

(** Closes [Forall is_byte l] for a list written out element by element,
    with hypotheses for the elements that are variables. *)
Ltac literal_bytes :=
  repeat (apply Forall_cons; split; [done || (unfold is_byte; lia)|]);
  by apply Forall_nil.

Lemma byte_of_int z : is_byte z → byte_of (PyInt z) = Ok z.
Proof. intros Hz. unfold byte_of. by rewrite decide_True. Qed.

Lemma byte_of_int_raise z : ¬ is_byte z → byte_of (PyInt z) = Raise ValueError.
Proof. intros Hz. unfold byte_of. by rewrite decide_False. Qed.

(** Conversion goes left to right: the bytes of a concatenation are the
    bytes of its parts, and the first part that raises decides. *)
Lemma bytes_app l1 l2 :
  bytes (l1 ++ l2) =
  match bytes l1 with
  | Ok b1 => match bytes l2 with
             | Ok b2 => Ok (b1 ++ b2)
             | Raise e => Raise e
             end
  | Raise e => Raise e
  end.
Proof.
  induction l1 as [|v l1 IH]; simpl.
  - by destruct (bytes l2).
  - destruct (byte_of v); [|done].
    rewrite IH. destruct (bytes l1); [|done]. by destruct (bytes l2).
Qed.

Lemma bytes_ints (l : list Z) :
  Forall is_byte l → bytes (PyInt <$> l) = Ok l.
Proof.
  induction 1 as [|z l Hz _ IH]; [done|].
  cbn [fmap list_fmap bytes]. by rewrite byte_of_int, IH.
Qed.

(** A list of integers that does not convert raises [ValueError]. *)
Lemma bytes_ints_raise (l : list Z) :
  Exists (λ z, ¬ is_byte z) l → bytes (PyInt <$> l) = Raise ValueError.
Proof.
  induction l as [|z l IH]; intros Hex; [by apply Exists_nil in Hex|].
  cbn [fmap list_fmap bytes].
  destruct (decide (is_byte z)) as [Hz|Hz].
  - rewrite byte_of_int by done.
    apply Exists_cons in Hex as [?|Hex]; [done|]. by rewrite IH.
  - by rewrite byte_of_int_raise.
Qed.

(** [None] after integers that convert is a [TypeError], whatever
    follows. *)
Lemma bytes_none_at (pre : list Z) (rest : list pyval) :
  Forall is_byte pre → bytes ((PyInt <$> pre) ++ PyNone :: rest) = Raise TypeError.
Proof. intros Hpre. by rewrite bytes_app, bytes_ints. Qed.

(** ** The loops *)

(** A loop whose bound stays inside [src] appends the image of
    [src[n:bound]] and never raises. *)
Lemma while_append_ok {A} (f : A → Z) (src : list A) (bound n : nat) dst :
  (bound ≤ length src)%nat →
  while_append f src bound n dst = Ok (dst ++ (f <$> drop n (take bound src))).
Proof.
  intros Hb. funelim (while_append f src bound n dst).
  - (* the loop condition fails: nothing is left to copy *)
    rewrite drop_ge, app_nil_r; [done|]. rewrite length_take. lia.
  - (* one iteration, then the rest of the loop *)
    match goal with
    | IH : _ → while_append _ _ _ _ _ = Ok _ |- _ => rewrite IH by done
    end.
    assert (Hd : drop n (take bound src) = x :: drop (S n) (take bound src)).
    { apply drop_S. by rewrite lookup_take_lt. }
    by rewrite Hd, fmap_cons, <- (assoc_L (++)).
  - (* indexing past the end cannot happen below the bound *)
    match goal with
    | Hn : src !! n = None |- _ => apply lookup_ge_None in Hn; lia
    end.
Qed.

(** [KPrntScrn] assembles [display_layout] and sends its bytes, or raises
    what the conversion to bytes raises; the loops themselves never
    raise. *)
Lemma KPrntScrn_run trkn word delaytime s :
  KPrntScrn trkn word delaytime s =
  match bytes (PyInt <$> display_layout trkn word) with
  | Ok msg => (Ok (), s ++ [msg])
  | Raise e => (Raise e, s)
  end.
Proof.
  unfold KPrntScrn, display_layout, display_header, retained.
  assert (Hloop :
    (if decide (length word ≤ 10)%nat
     then while_append ord word (length word) 0 []
     else while_append ord word 11 0 []) = Ok (ord <$> take 11 word)).
  { case_decide.
    - rewrite while_append_ok by done.
      rewrite drop_0, !take_ge by lia. done.
    - rewrite while_append_ok by lia. by rewrite drop_0. }
  rewrite Hloop, bind_lift_ok.
  rewrite while_append_ok by done.
  rewrite drop_0, take_ge, list_fmap_id by done.
  rewrite <- !(assoc_L (++)). unfold mbind, py_bind, lift.
  by destruct (bytes _).
Qed.

(** ** The tables *)

Lemma list_to_map_Forall {A} (P : string → A → Prop) (l : list (string * A))
    (k : string) (v : A) :
  Forall (λ kv, P kv.1 kv.2) l →
  (list_to_map l : gmap string A) !! k = Some v → P k v.
Proof.
  intros Hall Hk. apply elem_of_list_to_map_2 in Hk.
  by apply (proj1 (Forall_forall _ _) Hall (k, v)).
Qed.

Lemma buttons_entries k v : buttons !! k = Some v → button_entry k v.
Proof.
  apply list_to_map_Forall.
  repeat (apply Forall_cons; split;
          [apply (bool_decide_unpack _); vm_compute; exact I|]).
  by apply Forall_nil.
Qed.

Lemma mixerinfo_types_entries k v :
  mixerinfo_types !! k = Some v → mixerinfo_entry k v.
Proof.
  apply list_to_map_Forall.
  repeat (apply Forall_cons; split;
          [apply (bool_decide_unpack _); vm_compute; exact I|]).
  by apply Forall_nil.
Qed.

(** Both dict literals have distinct keys: every pair written in the
    source is an entry. *)
Example tables_size : size buttons = 26%nat ∧ size mixerinfo_types = 7%nat.
Proof. split; by vm_compute. Qed.

(** ** UTF-8 *)

Lemma log2_byte a : 0 ≤ a < 256 → Z.log2 a < 8.
Proof.
  intros [Ha Hlt]. destruct (decide (a = 0)) as [->|Hne]; [done|].
  apply Z.log2_lt_pow2; lia.
Qed.

Lemma lor_byte a b : 0 ≤ a < 256 → 0 ≤ b < 256 → is_byte (Z.lor a b).
Proof.
  intros Ha Hb.
  assert (Hnn : 0 ≤ Z.lor a b) by (apply Z.lor_nonneg; lia).
  split; [done|].
  destruct (decide (Z.lor a b = 0)) as [->|Hne]; [done|].
  cut (Z.lor a b < 2 ^ 8); [lia|].
  apply Z.log2_lt_pow2; [lia|].
  rewrite Z.log2_lor by lia.
  pose proof (log2_byte a Ha). pose proof (log2_byte b Hb). lia.
Qed.

Lemma land_low_bits z k : 0 ≤ k → 0 ≤ Z.land z (Z.ones k) < 2 ^ k.
Proof. intros Hk. rewrite Z.land_ones by done. by apply Z.mod_pos_bound, Z.pow_pos_nonneg. Qed.

Lemma shiftr_bound z k n :
  0 ≤ k → 0 ≤ z < n * 2 ^ k → 0 ≤ Z.shiftr z k < n.
Proof.
  intros Hk [Hz Hlt]. rewrite Z.shiftr_div_pow2 by done.
  assert (0 < 2 ^ k) by by apply Z.pow_pos_nonneg.
  split; [by apply Z.div_pos|]. apply Z.div_lt_upper_bound; lia.
Qed.

(** [encode] produces bytes. *)
Lemma encode_utf8_char_bytes c bs :
  encode_utf8_char c = Ok bs → Forall is_byte bs.
Proof.
  unfold encode_utf8_char.
  assert (Hc : 0 ≤ ord c) by (unfold ord; lia).
  assert (H6 : ∀ z, 0 ≤ Z.land z 0x3F < 64) by (intros z; apply (land_low_bits z 6); lia).
  assert (H3 : ∀ z, 0 ≤ Z.land z 0x07 < 8) by (intros z; apply (land_low_bits z 3); lia).
  repeat case_decide; intros [= <-];
    repeat (apply Forall_cons; split); try (by apply Forall_nil);
    try (apply lor_byte; [lia|]).
  - unfold is_byte. lia.
  - cut (0 ≤ Z.shiftr (ord c) 6 < 32); [lia|]. apply shiftr_bound; simpl; lia.
  - specialize (H6 (ord c)). lia.
  - cut (0 ≤ Z.shiftr (ord c) 12 < 16); [lia|]. apply shiftr_bound; simpl; lia.
  - specialize (H6 (Z.shiftr (ord c) 6)). lia.
  - specialize (H6 (ord c)). lia.
  - specialize (H3 (Z.shiftr (ord c) 18)). lia.
  - specialize (H6 (Z.shiftr (ord c) 12)). lia.
  - specialize (H6 (Z.shiftr (ord c) 6)). lia.
  - specialize (H6 (ord c)). lia.
Qed.

Lemma encode_utf8_bytes s bs : encode_utf8 s = Ok bs → Forall is_byte bs.
Proof.
  revert bs. induction s as [|c s IH]; intros bs; simpl.
  - by intros [= <-].
  - destruct (encode_utf8_char c) as [b1|] eqn:Hc; [|done].
    destruct (encode_utf8 s) as [b2|]; [|done]. intros [= <-].
    apply Forall_app. split; [by eapply encode_utf8_char_bytes | by apply IH].
Qed.

(** The four forms and the refusal of a surrogate, on U+004B (K),
    U+00E9, U+20AC, U+1F600 and U+D800. *)
Example encode_utf8_forms :
  encode_utf8 [0x4B; 0xE9; 0x20AC; 0x1F600]%N =
    Ok [0x4B; 0xC3; 0xA9; 0xE2; 0x82; 0xAC; 0xF0; 0x9F; 0x98; 0x80] ∧
  encode_utf8 [0x4B; 0xD800]%N = Raise UnicodeEncodeError.
Proof. split; by vm_compute. Qed.

(** Which texts are encoded and which are refused. *)
Lemma encode_utf8_char_outcome c :
  if decide (surrogate c)
  then encode_utf8_char c = Raise UnicodeEncodeError
  else ∃ bs, encode_utf8_char c = Ok bs.
Proof.
  unfold encode_utf8_char, surrogate. cbv zeta.
  destruct (decide (0xD800 ≤ ord c ≤ 0xDFFF)) as [Hs|Hs].
  - (* a surrogate lies in the three-byte range *)
    repeat case_decide; (lia || done).
  - repeat case_decide; by eexists.
Qed.

Lemma encode_utf8_outcome (text : str) :
  if decide (Exists surrogate text)
  then encode_utf8 text = Raise UnicodeEncodeError
  else ∃ bs, encode_utf8 text = Ok bs.
Proof.
  induction text as [|c text IH]; cbn [encode_utf8].
  - destruct (decide (Exists surrogate [])) as [Hex|_];
      [by apply Exists_nil in Hex | by eexists].
  - pose proof (encode_utf8_char_outcome c) as Hc.
    destruct (decide (surrogate c)) as [Hs|Hs].
    + rewrite decide_True by (by apply Exists_cons; left). by rewrite Hc.
    + destruct Hc as [bs ->].
      destruct (decide (Exists surrogate text)) as [Hex|Hex].
      * rewrite decide_True by (by apply Exists_cons; right). by rewrite IH.
      * destruct IH as [bs' ->].
        rewrite decide_False by (rewrite Exists_cons; tauto). by eexists.
Qed.

(** Setting bits above a value of [k] bits adds them. *)
Lemma lor_shiftl_add m k x :
  0 ≤ k → 0 ≤ x < 2 ^ k → Z.lor (Z.shiftl m k) x = Z.shiftl m k + x.
Proof.
  intros Hk Hx.
  cut (Z.land (Z.shiftl m k) x = 0).
  { intros Hland. pose proof (Z.add_lor_land (Z.shiftl m k) x). lia. }
  apply Z.bits_inj'. intros i Hi.
  rewrite Z.land_spec, Z.bits_0.
  destruct (decide (i < k)) as [Hlt|Hge].
  - by rewrite Z.shiftl_spec_low.
  - cut (Z.testbit x i = false); [intros ->; apply andb_false_r|].
    destruct (decide (x = 0)) as [->|Hne]; [apply Z.bits_0|].
    apply Z.bits_above_log2; [lia|].
    apply Z.log2_lt_pow2; [lia|].
    apply Z.lt_le_trans with (2 ^ k); [lia|].
    apply Z.pow_le_mono_r; lia.
Qed.

Lemma lor_continuation z : Z.lor 0x80 (Z.land z 0x3F) = 0x80 + z mod 64.
Proof.
  change 0x3F with (Z.ones 6). rewrite Z.land_ones by lia.
  change 0x80 with (Z.shiftl 2 6) at 1.
  rewrite lor_shiftl_add; [done | lia |]. apply Z.mod_pos_bound. lia.
Qed.

(** [encode_utf8] is UTF-8: on every character that is no surrogate it
    gives the bytes of the definition. *)
Lemma encode_utf8_char_reference c :
  ¬ surrogate c → encode_utf8_char c = Ok (utf8_bytes c).
Proof.
  unfold surrogate, encode_utf8_char, utf8_bytes. cbv zeta. intros Hs.
  assert (Hc : 0 ≤ ord c) by (unfold ord; lia).
  rewrite !lor_continuation, !Z.shiftr_div_pow2 by lia.
  change (2 ^ 6) with 64. change (2 ^ 12) with 4096.
  change (2 ^ 18) with 262144.
  repeat case_decide; try lia; do 2 f_equal.
  - (* two bytes: five bits under 110 *)
    change 0xC0 with (Z.shiftl 6 5). apply lor_shiftl_add; [lia|].
    split; [by apply Z.div_pos|]. apply Z.div_lt_upper_bound; simpl; lia.
  - (* three bytes: four bits under 1110 *)
    change 0xE0 with (Z.shiftl 14 4). apply lor_shiftl_add; [lia|].
    split; [by apply Z.div_pos|]. apply Z.div_lt_upper_bound; simpl; lia.
  - (* four bytes: three bits under 11110 *)
    change 0x07 with (Z.ones 3). rewrite Z.land_ones by lia.
    change (2 ^ 3) with 8. change 0xF0 with (Z.shiftl 30 3).
    apply lor_shiftl_add; [lia|]. apply Z.mod_pos_bound. lia.
Qed.

Lemma encode_utf8_reference (text : str) :
  Forall (λ c, ¬ surrogate c) text →
  encode_utf8 text = Ok (concat (utf8_bytes <$> text)).
Proof.
  induction 1 as [|c text Hc _ IH]; [done|].
  cbn [encode_utf8 fmap list_fmap concat].
  by rewrite encode_utf8_char_reference, IH.
Qed.

(** UTF-8 takes at least one byte per character, and more than one for
    every character from U+0080 on: it is not the list of code points as
    soon as such a character occurs. *)
Lemma utf8_bytes_length c :
  (1 ≤ length (utf8_bytes c))%nat ∧
  (0x80 ≤ ord c → (2 ≤ length (utf8_bytes c))%nat).
Proof.
  unfold utf8_bytes. cbv zeta. repeat case_decide; simpl; split; lia.
Qed.

Lemma utf8_not_code_points (text : str) :
  Exists (λ c, 0x80 ≤ ord c) text → concat (utf8_bytes <$> text) ≠ ord <$> text.
Proof.
  intros Hex Heq. apply (f_equal length) in Heq.
  rewrite length_fmap in Heq.
  assert (Hle : ∀ t : str, (length t ≤ length (concat (utf8_bytes <$> t)))%nat).
  { induction t as [|c t IH]; [done|].
    cbn [fmap list_fmap concat length]. rewrite length_app.
    destruct (utf8_bytes_length c) as [H1 _]. simpl in *. lia. }
  revert Heq. induction Hex as [c t Hc|c t _ IH];
    cbn [fmap list_fmap concat length]; rewrite length_app.
  - destruct (utf8_bytes_length c) as [_ H2]. specialize (H2 Hc).
    specialize (Hle t). simpl in *. lia.
  - destruct (utf8_bytes_length c) as [H1 _]. specialize (Hle t).
    simpl in *. intros Heq.
    destruct (decide (length (concat (utf8_bytes <$> t)) = length t)) as [He|He];
      [by apply IH | lia].
Qed.

(** When slot and retained characters fit a byte, so does the whole
    layout. *)
Lemma display_layout_bytes trkn word :
  is_byte trkn → Forall latin1 (retained word) →
  Forall is_byte (display_layout trkn word).
Proof.
  intros Ht Hw. unfold display_layout. rewrite !Forall_app. repeat split.
  - unfold display_header. literal_bytes.
  - by apply Forall_singleton.
  - apply Forall_fmap. eapply Forall_impl; [exact Hw|].
    intros c Hc. unfold latin1, ord, is_byte in *. simpl. lia.
  - apply Forall_singleton. unfold is_byte. lia.
Qed.

(** Then the message is the layout itself. *)
Lemma KPrntScrn_ok trkn word delaytime s :
  is_byte trkn → Forall latin1 (retained word) →
  KPrntScrn trkn word delaytime s = (Ok (), s ++ [display_layout trkn word]).
Proof.
  intros Ht Hw. rewrite KPrntScrn_run, bytes_ints; [done|].
  by apply display_layout_bytes.
Qed.

(** A retained character beyond one byte makes the conversion raise, and
    nothing is sent. *)
Lemma KPrntScrn_raise trkn word delaytime s :
  Exists (λ c, ¬ latin1 c) (retained word) →
  KPrntScrn trkn word delaytime s = (Raise ValueError, s).
Proof.
  intros Hex. rewrite KPrntScrn_run, bytes_ints_raise; [done|].
  unfold display_layout. rewrite !Exists_app. right; right; left.
  apply Exists_fmap. eapply Exists_impl; [exact Hex|].
  intros c Hc. unfold latin1, is_byte in *. simpl. lia.
Qed.

(** Only the retained characters matter. *)
Lemma KPrntScrn_retained trkn word delaytime s :
  KPrntScrn trkn word delaytime s = KPrntScrn trkn (retained word) delaytime s.
Proof.
  rewrite !KPrntScrn_run. unfold display_layout, retained.
  by rewrite take_take.
Qed.

(** ** Short control frames *)

Lemma dataOut_bytes d1 d2 s :
  is_byte d1 → is_byte d2 →
  dataOut (PyInt d1) (PyInt d2) s = (Ok (), s ++ [[0xF0; 0xBF; d1; d2]]).
Proof.
  intros H1 H2. unfold dataOut, bytearray.
  change [PyInt 240; PyInt 191; PyInt d1; PyInt d2]
    with (PyInt <$> [240; 191; d1; d2]).
  rewrite bytes_ints; [done|]. literal_bytes.
Qed.

(** A first data value that is not an integer is refused before anything
    is sent, whatever the second one is. *)
Lemma dataOut_refused v d2 s :
  byte_of v = Raise TypeError → dataOut v d2 s = (Raise TypeError, s).
Proof.
  intros Hv. unfold dataOut, bytearray. cbn [bytes].
  rewrite !byte_of_int, Hv by (unfold is_byte; lia). done.
Qed.

(** ** Mixer reports *)

(** The bytes of the optional text: none when [info] is not passed. *)
Lemma mixerSendInfo_known info_type v trackID kw bs s :
  mixerinfo_types !! info_type = Some v →
  is_byte trackID →
  is_byte (default 0 (kw_value kw)) →
  from_option encode_utf8 (Ok []) (kw_info kw) = Ok bs →
  ∃ id, v = PyInt id ∧ is_byte id ∧
    mixerSendInfo info_type trackID kw s =
    (Ok (), s ++ [[0xF0; 0x00; 0x21; 0x09; 0x00; 0x00; 0x44; 0x43; 0x01; 0x00;
                   id; default 0 (kw_value kw); trackID] ++ bs ++ [0xF7]]).
Proof.
  intros Hk Ht Hv Hbs.
  pose proof (mixerinfo_types_entries _ _ Hk) as Hid.
  destruct v as [id| |]; try done. simpl in Hid.
  exists id. split; [done|]. split; [done|].
  assert (Hall : Forall is_byte
    ([240; 0; 33; 9; 0; 0; 68; 67; 1; 0; id; default 0 (kw_value kw); trackID]
       ++ bs ++ [247])).
  { rewrite !Forall_app. repeat split.
    - literal_bytes.
    - destruct (kw_info kw) as [info|]; simpl in Hbs.
      + by eapply encode_utf8_bytes.
      + injection Hbs as <-. by apply Forall_nil.
    - apply Forall_singleton. unfold is_byte. lia. }
  unfold mixerSendInfo, dict_get. rewrite Hk. simpl default.
  destruct (kw_info kw) as [info|]; simpl in Hbs.
  - rewrite Hbs, bind_lift_ok.
    replace (bytes _)
      with (bytes (PyInt <$> ([240; 0; 33; 9; 0; 0; 68; 67; 1; 0; id;
                               default 0 (kw_value kw); trackID] ++ bs ++ [247])))
      by by rewrite !fmap_app.
    by rewrite bytes_ints.
  - injection Hbs as <-.
    change (bytes _)
      with (bytes (PyInt <$> ([240; 0; 33; 9; 0; 0; 68; 67; 1; 0; id;
                               default 0 (kw_value kw); trackID] ++ [] ++ [247]))).
    by rewrite bytes_ints.
Qed.

(** With an unknown kind the identifier slot holds [None]: the conversion
    to bytes raises [TypeError] there, unless encoding the text has raised
    already; either way nothing is sent. *)
Lemma mixerSendInfo_unknown info_type trackID kw s :
  mixerinfo_types !! info_type = None →
  mixerSendInfo info_type trackID kw s =
  (Raise (match from_option encode_utf8 (Ok []) (kw_info kw) with
          | Ok _ => TypeError
          | Raise e => e
          end), s).
Proof.
  intros Hk. unfold mixerSendInfo, dict_get. rewrite Hk.
  assert (Hpre : Forall is_byte [240; 0; 33; 9; 0; 0; 68; 67; 1; 0])
    by literal_bytes.
  destruct (kw_info kw) as [info|]; simpl from_option.
  - destruct (encode_utf8 info) as [bs|e]; [|done].
    rewrite bind_lift_ok.
    change (bytes _) with
      (bytes ((PyInt <$> [240; 0; 33; 9; 0; 0; 68; 67; 1; 0]) ++
              PyNone :: PyInt (default 0 (kw_value kw)) :: PyInt trackID
                :: (PyInt <$> bs) ++ [PyInt 247])).
    by rewrite bytes_none_at.
  - change (bytes _) with
      (bytes ((PyInt <$> [240; 0; 33; 9; 0; 0; 68; 67; 1; 0]) ++
              PyNone :: PyInt (default 0 (kw_value kw)) :: PyInt trackID
                :: [PyInt 247])).
    by rewrite bytes_none_at.
Qed.

(** * The handshake *)

(** C6: [restartProtocol] sends exactly two messages after whatever was
    sent before: the goodbye message F0 BF 02 01 of [terminate] first, the
    hello message F0 BF 01 01 of [initiate] right after it; the two are
    never sent the other way round. *)
Theorem restartProtocol_terminate_then_initiate (s : sink) :
  terminate s = (Ok (), s ++ [[0xF0; 0xBF; 0x02; 0x01]]) ∧
  initiate s = (Ok (), s ++ [[0xF0; 0xBF; 0x01; 0x01]]) ∧
  restartProtocol s =
    (Ok (), s ++ [[0xF0; 0xBF; 0x02; 0x01]; [0xF0; 0xBF; 0x01; 0x01]]) ∧
  sent restartProtocol s ≠
    s ++ [[0xF0; 0xBF; 0x01; 0x01]; [0xF0; 0xBF; 0x02; 0x01]].
Proof.
  assert (Hrun : restartProtocol s =
    (Ok (), s ++ [[0xF0; 0xBF; 0x02; 0x01]; [0xF0; 0xBF; 0x01; 0x01]])).
  { unfold restartProtocol, mbind, py_bind, terminate, initiate.
    rewrite !dataOut_bytes by (unfold is_byte; lia).
    by rewrite <- (assoc_L (++)). }
  split; [|split; [|split]].
  - unfold terminate. apply dataOut_bytes; unfold is_byte; lia.
  - unfold initiate. apply dataOut_bytes; unfold is_byte; lia.
  - exact Hrun.
  - unfold sent. rewrite Hrun. simpl. intros Heq.
    apply app_inv_head in Heq. discriminate Heq.
Qed.

(** * Button lights *)

(** C7, as the code has it: for every button whose entry in [buttons] is a
    single data1 value (every entry except the six encoder motion events)
    and every light state 0 or 1, [buttonSetLight] sends exactly the four
    bytes F0 BF data1 data2 with data1 the table value and data2 the light
    state. *)
Theorem buttonSetLight_frame (buttonName : string) (data1 lightMode : Z)
    (s : sink) :
  buttons !! buttonName = Some (PyInt data1) →
  lightMode = 0 ∨ lightMode = 1 →
  (buttonName ∉ encoder_motion_events) ∧
  buttonSetLight buttonName lightMode s =
    (Ok (), s ++ [[0xF0; 0xBF; data1; lightMode]]).
Proof.
  intros Hb Hl.
  destruct (buttons_entries _ _ Hb) as [Hd1 Hnot]. split; [done|].
  unfold buttonSetLight, dict_get. rewrite Hb.
  destruct Hl as [-> | ->]; by apply dataOut_bytes.
Qed.

Lemma buttonSetLight_frame_witness :
  buttonSetLight "PLAY" 1 [] = (Ok (), [[0xF0; 0xBF; 16; 1]]).
Proof.
  apply (buttonSetLight_frame "PLAY" 16 1 []); [reflexivity | right; reflexivity].
Defined.

(** C7 fails as stated: ENCODER_RIGHT is in [buttons], yet with light
    state 0 no four-byte frame comes out; the call raises and sends
    nothing. *)
Lemma buttonSetLight_encoder_right_no_frame :
  buttons !! "ENCODER_RIGHT" = Some (PyList [50; 1]) ∧
  buttonSetLight "ENCODER_RIGHT" 0 [] = (Raise TypeError, []) ∧
  ¬ ∃ data1 data2,
      buttonSetLight "ENCODER_RIGHT" 0 [] =
      (Ok (), [[0xF0; 0xBF; data1; data2]]).
Proof.
  split; [reflexivity|]. split; [reflexivity|].
  intros (d1 & d2 & Heq). discriminate Heq.
Qed.

(** C9: for each of the six encoder motion events, whose entry in
    [buttons] is a two-element list, and for every light state,
    [buttonSetLight] builds no frame: converting the list to bytes raises
    [TypeError] at the data1 position and nothing reaches the device. *)
Theorem buttonSetLight_encoder_motion_refused (buttonName : string) :
  buttonName ∈ encoder_motion_events →
  (∃ d1 d2, buttons !! buttonName = Some (PyList [d1; d2])) ∧
  ∀ (lightMode : Z) (s : sink),
    buttonSetLight buttonName lightMode s = (Raise TypeError, s) ∧
    sent (buttonSetLight buttonName lightMode) s = s.
Proof.
  intros Hin.
  assert (Hpair : ∃ d1 d2, buttons !! buttonName = Some (PyList [d1; d2])).
  { unfold encoder_motion_events in Hin.
    repeat (apply elem_of_cons in Hin as [-> | Hin];
            [eexists _, _; vm_compute; reflexivity|]).
    by apply elem_of_nil in Hin. }
  split; [exact Hpair|].
  destruct Hpair as (d1 & d2 & Hb). intros lightMode s.
  assert (Hrun : buttonSetLight buttonName lightMode s = (Raise TypeError, s)).
  { unfold buttonSetLight, dict_get. rewrite Hb. by apply dataOut_refused. }
  split; [exact Hrun|]. unfold sent. by rewrite Hrun.
Qed.

Lemma buttonSetLight_encoder_motion_refused_witness :
  buttonSetLight "ENCODER_PLUS" 1 [] = (Raise TypeError, []).
Proof.
  apply (buttonSetLight_encoder_motion_refused "ENCODER_PLUS").
  apply (bool_decide_unpack _). vm_compute. exact I.
Defined.

(** The entries that are pairs are exactly the encoder motion events. *)
Lemma buttons_pair_iff (buttonName : string) :
  (∃ l, buttons !! buttonName = Some (PyList l)) ↔
  buttonName ∈ encoder_motion_events.
Proof.
  split.
  - intros [l Hb]. by destruct (buttons_entries _ _ Hb).
  - intros Hin. unfold encoder_motion_events in Hin.
    repeat (apply elem_of_cons in Hin as [-> | Hin];
            [eexists; vm_compute; reflexivity|]).
    by apply elem_of_nil in Hin.
Qed.

(** * Unknown identifiers *)

(** C2, as the code has it: a button name that is not in [buttons] makes
    [buttonSetLight] fail, and a kind that is not in [mixerinfo_types]
    makes [mixerSendInfo] fail whenever the text, if one is passed,
    contains no surrogate code point: [dict.get] yields [None] for the
    identifier and the conversion of the message to bytes raises
    [TypeError] on it before [device.midiOutSysex] is reached.  That is the
    error any value that is no integer gets, not an error of its own for
    unknown identifiers.  With a text that contains a surrogate the call
    fails earlier, with [UnicodeEncodeError].  In every case the device
    receives nothing. *)
Theorem unknown_identifier_refused :
  (∀ (buttonName : string) (lightMode : Z) (s : sink),
     buttons !! buttonName = None →
     buttonSetLight buttonName lightMode s = (Raise TypeError, s)) ∧
  (∀ (info_type : string) (trackID : Z) (kw : kwargs) (s : sink),
     mixerinfo_types !! info_type = None →
     (kw_info kw = None →
      mixerSendInfo info_type trackID kw s = (Raise TypeError, s)) ∧
     (∀ info, kw_info kw = Some info →
        Forall (λ c, ¬ surrogate c) info →
        mixerSendInfo info_type trackID kw s = (Raise TypeError, s)) ∧
     (∀ info, kw_info kw = Some info →
        Exists surrogate info →
        mixerSendInfo info_type trackID kw s = (Raise UnicodeEncodeError, s))).
Proof.
  split.
  - intros buttonName lightMode s Hb.
    unfold buttonSetLight, dict_get. rewrite Hb. by apply dataOut_refused.
  - intros info_type trackID kw s Hk.
    rewrite (mixerSendInfo_unknown info_type trackID kw s Hk).
    split; [|split].
    + (* no text: only the identifier can fail *)
      by intros ->.
    + (* a text that is encoded: the identifier fails after it *)
      intros info -> Hall. simpl from_option.
      by rewrite encode_utf8_reference.
    + (* a text that is refused: the identifier is never looked at *)
      intros info -> Hex. simpl from_option.
      pose proof (encode_utf8_outcome info) as Henc.
      rewrite decide_True in Henc by done. by rewrite Henc.
Qed.

Lemma unknown_identifier_refused_witness :
  buttonSetLight "SHIFT" 1 [] = (Raise TypeError, []) ∧
  mixerSendInfo "PEAK" 3 (Kwargs (Some 1) None) [] = (Raise TypeError, []) ∧
  mixerSendInfo "TITLE" 2 (Kwargs None (Some (str_of "Kick"))) [] =
    (Raise TypeError, []) ∧
  mixerSendInfo "TITLE" 2 (Kwargs None (Some [0x4B; 0xD83D]%N)) [] =
    (Raise UnicodeEncodeError, []).
Proof.
  destruct unknown_identifier_refused as [Hbutton Hmixer].
  split; [|split; [|split]].
  - apply Hbutton. vm_compute. reflexivity.
  - apply (Hmixer "PEAK" 3 (Kwargs (Some 1) None) []).
    + vm_compute. reflexivity.
    + reflexivity.
  - apply (Hmixer "TITLE" 2 (Kwargs None (Some (str_of "Kick"))) [])
      with (info := str_of "Kick").
    + vm_compute. reflexivity.
    + reflexivity.
    + apply (bool_decide_unpack _). vm_compute. exact I.
  - apply (Hmixer "TITLE" 2 (Kwargs None (Some [0x4B; 0xD83D]%N)) [])
      with (info := [0x4B; 0xD83D]%N).
    + vm_compute. reflexivity.
    + reflexivity.
    + apply (bool_decide_unpack _). vm_compute. exact I.
Defined.

(** C2 fails as stated: PEAK is no kind of [mixerinfo_types], yet with a
    text that holds a lone surrogate the call does not fail on the
    identifier: it raises [UnicodeEncodeError] while encoding the text,
    exactly as it does for the known kind NAME.  And where the identifier
    is what fails, the error is the [TypeError] of the conversion to
    bytes, the one the known name ENCODER_PLUS gets too. *)
Lemma unknown_kind_fails_on_text :
  mixerinfo_types !! "PEAK" = None ∧
  mixerSendInfo "PEAK" 2 (Kwargs None (Some [0x4B; 0xD83D]%N)) [] =
    (Raise UnicodeEncodeError, []) ∧
  mixerSendInfo "NAME" 2 (Kwargs None (Some [0x4B; 0xD83D]%N)) [] =
    (Raise UnicodeEncodeError, []) ∧
  buttons !! "SHIFT" = None ∧
  is_Some (buttons !! "ENCODER_PLUS") ∧
  buttonSetLight "SHIFT" 1 [] = buttonSetLight "ENCODER_PLUS" 1 [].
Proof.
  split; [by vm_compute|]. split; [by vm_compute|]. split; [by vm_compute|].
  split; [by vm_compute|]. split; [by eexists|]. by vm_compute.
Qed.

(** * Mixer reports *)

(** C3: for every kind of [mixerinfo_types], every track byte and every
    value byte, [mixerSendInfo] without [info] sends exactly the fourteen
    bytes F0 00 21 09 00 00 44 43 01 00, identifier, value, track, F7; so
    IS_MUTE on track 3 with value 1 gives
    F0 00 21 09 00 00 44 43 01 00 43 01 03 F7. *)
Theorem mixerSendInfo_without_info :
  (∀ (info_type : string) (v : pyval) (trackID : Z) (kw : kwargs) (s : sink),
     mixerinfo_types !! info_type = Some v →
     is_byte trackID →
     is_byte (default 0 (kw_value kw)) →
     kw_info kw = None →
     ∃ identifierByte, v = PyInt identifierByte ∧
       mixerSendInfo info_type trackID kw s =
       (Ok (), s ++ [[0xF0; 0x00; 0x21; 0x09; 0x00; 0x00; 0x44; 0x43; 0x01;
                      0x00; identifierByte; default 0 (kw_value kw); trackID;
                      0xF7]])) ∧
  (∀ s : sink,
     mixerSendInfo "IS_MUTE" 3 (Kwargs (Some 1) None) s =
     (Ok (), s ++ [[0xF0; 0x00; 0x21; 0x09; 0x00; 0x00; 0x44; 0x43; 0x01;
                    0x00; 0x43; 0x01; 0x03; 0xF7]])).
Proof.
  assert (Hgen : ∀ info_type v trackID kw s,
     mixerinfo_types !! info_type = Some v →
     is_byte trackID → is_byte (default 0 (kw_value kw)) → kw_info kw = None →
     ∃ identifierByte, v = PyInt identifierByte ∧
       mixerSendInfo info_type trackID kw s =
       (Ok (), s ++ [[0xF0; 0x00; 0x21; 0x09; 0x00; 0x00; 0x44; 0x43; 0x01;
                      0x00; identifierByte; default 0 (kw_value kw); trackID;
                      0xF7]])).
  { intros info_type v trackID kw s Hk Ht Hv Hinfo.
    destruct (mixerSendInfo_known info_type v trackID kw [] s Hk Ht Hv)
      as (id & -> & _ & Hrun); [by rewrite Hinfo|].
    by exists id. }
  split; [exact Hgen|].
  intros s.
  destruct (Hgen "IS_MUTE" (PyInt 67) 3 (Kwargs (Some 1) None) s)
    as (id & [= <-] & Hrun);
    [vm_compute; reflexivity | unfold is_byte; simpl; lia ..
    | reflexivity | exact Hrun].
Qed.

Lemma mixerSendInfo_without_info_witness :
  ∃ identifierByte, PyInt 70 = PyInt identifierByte ∧
    mixerSendInfo "VOLUME" 7 (Kwargs None None) [] =
    (Ok (), [] ++ [[0xF0; 0x00; 0x21; 0x09; 0x00; 0x00; 0x44; 0x43; 0x01;
                    0x00; identifierByte; 0; 7; 0xF7]]).
Proof.
  apply (proj1 mixerSendInfo_without_info "VOLUME" (PyInt 70) 7
           (Kwargs None None) []).
  - vm_compute. reflexivity.
  - unfold is_byte. lia.
  - unfold is_byte. simpl. lia.
  - reflexivity.
Defined.

(** C4, as the code has it: for every kind of [mixerinfo_types], every
    track byte, every value byte and every text [info] that contains no
    surrogate code point, [mixerSendInfo] sends exactly
    F0 00 21 09 00 00 44 43 01 00, identifier, value, track, then the
    UTF-8 bytes of the text, then F7: the track byte follows the
    identifier/value pair and the text bytes end right before the
    terminator.  The text bytes are UTF-8 and not one byte per code
    point: the two differ as soon as the text has a character from U+0080
    on. *)
Theorem mixerSendInfo_with_info (info_type : string) (v : pyval)
    (trackID : Z) (kw : kwargs) (info : str) (s : sink) :
  mixerinfo_types !! info_type = Some v →
  is_byte trackID →
  is_byte (default 0 (kw_value kw)) →
  kw_info kw = Some info →
  Forall (λ c, ¬ surrogate c) info →
  ∃ identifierByte, v = PyInt identifierByte ∧
    mixerSendInfo info_type trackID kw s =
    (Ok (), s ++ [[0xF0; 0x00; 0x21; 0x09; 0x00; 0x00; 0x44; 0x43; 0x01;
                   0x00; identifierByte; default 0 (kw_value kw); trackID]
                  ++ concat (utf8_bytes <$> info) ++ [0xF7]]) ∧
    (Exists (λ c, 0x80 ≤ ord c) info →
     concat (utf8_bytes <$> info) ≠ ord <$> info).
Proof.
  intros Hk Ht Hv Hinfo Hall.
  (* the text is encoded first, and the encoder is UTF-8 *)
  assert (Hbs : from_option encode_utf8 (Ok []) (kw_info kw) =
                Ok (concat (utf8_bytes <$> info)))
    by (rewrite Hinfo; by apply encode_utf8_reference).
  (* its bytes go between the track byte and the terminator *)
  destruct (mixerSendInfo_known info_type v trackID kw _ s Hk Ht Hv Hbs)
    as (id & -> & _ & Hrun).
  exists id. split; [done|]. split; [exact Hrun|].
  apply utf8_not_code_points.
Qed.

Lemma mixerSendInfo_with_info_witness :
  ∃ identifierByte, PyInt 72 = PyInt identifierByte ∧
    mixerSendInfo "NAME" 2 (Kwargs None (Some [0x43; 0x61; 0x66; 0xE9]%N)) [] =
    (Ok (), [] ++ [[0xF0; 0x00; 0x21; 0x09; 0x00; 0x00; 0x44; 0x43; 0x01;
                    0x00; identifierByte; 0; 2]
                   ++ concat (utf8_bytes <$> [0x43; 0x61; 0x66; 0xE9]%N)
                   ++ [0xF7]]) ∧
    (Exists (λ c, 0x80 ≤ ord c) [0x43; 0x61; 0x66; 0xE9]%N →
     concat (utf8_bytes <$> [0x43; 0x61; 0x66; 0xE9]%N) ≠
     ord <$> [0x43; 0x61; 0x66; 0xE9]%N).
Proof.
  apply (mixerSendInfo_with_info "NAME" (PyInt 72) 2
           (Kwargs None (Some [0x43; 0x61; 0x66; 0xE9]%N))
           [0x43; 0x61; 0x66; 0xE9]%N []).
  - vm_compute. reflexivity.
  - unfold is_byte. lia.
  - unfold is_byte. simpl. lia.
  - reflexivity.
  - apply (bool_decide_unpack _). vm_compute. exact I.
Defined.

(** The bytes of that message: U+00E9 goes out as C3 A9, not as E9. *)
Example mixerSendInfo_cafe :
  mixerSendInfo "NAME" 2 (Kwargs None (Some [0x43; 0x61; 0x66; 0xE9]%N)) [] =
  (Ok (), [[0xF0; 0x00; 0x21; 0x09; 0x00; 0x00; 0x44; 0x43; 0x01; 0x00;
            0x48; 0x00; 0x02; 0x43; 0x61; 0x66; 0xC3; 0xA9; 0xF7]]) ∧
  mixerSendInfo "NAME" 2 (Kwargs None (Some (str_of "Kick"))) [] =
  (Ok (), [[0xF0; 0x00; 0x21; 0x09; 0x00; 0x00; 0x44; 0x43; 0x01; 0x00;
            0x48; 0x00; 0x02; 0x4B; 0x69; 0x63; 0x6B; 0xF7]]).
Proof. split; by vm_compute. Qed.

(** C4 fails as stated: NAME is a kind of [mixerinfo_types], 2 a track
    byte and the value defaults to 0, yet for this text, which holds a
    lone surrogate (U+D83D), no message is produced: encoding the text
    raises and nothing is sent. *)
Lemma mixerSendInfo_surrogate_info_no_frame :
  mixerinfo_types !! "NAME" = Some (PyInt 72) ∧
  is_byte 2 ∧ is_byte 0 ∧
  mixerSendInfo "NAME" 2 (Kwargs None (Some [0x4B; 0xD83D]%N)) [] =
    (Raise UnicodeEncodeError, []) ∧
  ¬ ∃ bs : frame,
      mixerSendInfo "NAME" 2 (Kwargs None (Some [0x4B; 0xD83D]%N)) [] =
      (Ok (), [[0xF0; 0x00; 0x21; 0x09; 0x00; 0x00; 0x44; 0x43; 0x01; 0x00;
                0x48; 0x00; 0x02] ++ bs ++ [0xF7]]).
Proof.
  split; [by vm_compute|].
  split; [unfold is_byte; lia|]. split; [unfold is_byte; lia|].
  split; [by vm_compute|].
  intros [bs Heq]. vm_compute in Heq. discriminate Heq.
Qed.

(** C10: for every kind of [mixerinfo_types], every track byte and every
    value byte, [mixerSendInfo] with the empty text and [mixerSendInfo]
    without [info] send the same fourteen bytes
    F0 00 21 09 00 00 44 43 01 00, identifier, value, track, F7. *)
Theorem mixerSendInfo_empty_info (info_type : string) (v : pyval)
    (trackID : Z) (value : option Z) (s : sink) :
  mixerinfo_types !! info_type = Some v →
  is_byte trackID →
  is_byte (default 0 value) →
  ∃ identifierByte, v = PyInt identifierByte ∧
    mixerSendInfo info_type trackID (Kwargs value (Some [])) s =
      (Ok (), s ++ [[0xF0; 0x00; 0x21; 0x09; 0x00; 0x00; 0x44; 0x43; 0x01;
                     0x00; identifierByte; default 0 value; trackID; 0xF7]]) ∧
    mixerSendInfo info_type trackID (Kwargs value None) s =
      (Ok (), s ++ [[0xF0; 0x00; 0x21; 0x09; 0x00; 0x00; 0x44; 0x43; 0x01;
                     0x00; identifierByte; default 0 value; trackID; 0xF7]]).
Proof.
  intros Hk Ht Hv.
  destruct (mixerSendInfo_known info_type v trackID (Kwargs value (Some []))
              [] s Hk Ht Hv eq_refl) as (id & -> & _ & Hempty).
  destruct (mixerSendInfo_known info_type (PyInt id) trackID
              (Kwargs value None) [] s Hk Ht Hv eq_refl)
    as (id' & [= <-] & _ & Habsent).
  exists id. by repeat split.
Qed.

Lemma mixerSendInfo_empty_info_witness :
  ∃ identifierByte, PyInt 68 = PyInt identifierByte ∧
    mixerSendInfo "IS_SOLO" 5 (Kwargs (Some 1) (Some [])) [] =
      (Ok (), [] ++ [[0xF0; 0x00; 0x21; 0x09; 0x00; 0x00; 0x44; 0x43; 0x01;
                      0x00; identifierByte; 1; 5; 0xF7]]) ∧
    mixerSendInfo "IS_SOLO" 5 (Kwargs (Some 1) None) [] =
      (Ok (), [] ++ [[0xF0; 0x00; 0x21; 0x09; 0x00; 0x00; 0x44; 0x43; 0x01;
                      0x00; identifierByte; 1; 5; 0xF7]]).
Proof.
  apply (mixerSendInfo_empty_info "IS_SOLO" (PyInt 68) 5 (Some 1) []).
  - vm_compute. reflexivity.
  - unfold is_byte. lia.
  - unfold is_byte. simpl. lia.
Defined.

(** * Display text *)

(** C5, as the code has it: for every slot byte and every text whose
    retained characters (the first 11) have code points up to 255,
    [KPrntScrn] sends one message: the twelve header bytes
    F0 00 21 09 00 00 44 43 01 00 48 00, the slot byte, one byte per
    retained character holding its code point, and the terminator F7. *)
Theorem KPrntScrn_frame (trkn : Z) (word : str) (delaytime : Z) (s : sink) :
  is_byte trkn →
  Forall (λ c, ord c ≤ 255) (take 11 word) →
  KPrntScrn trkn word delaytime s =
  (Ok (), s ++ [[0xF0; 0x00; 0x21; 0x09; 0x00; 0x00; 0x44; 0x43; 0x01; 0x00;
                 0x48; 0x00] ++ [trkn] ++ (ord <$> take 11 word) ++ [0xF7]]).
Proof.
  intros Ht Hw.
  (* what the loops assemble *)
  rewrite KPrntScrn_run.
  (* every element of it is a byte, so [bytes] returns it unchanged *)
  assert (Hbytes : Forall is_byte (display_layout trkn word))
    by by apply display_layout_bytes.
  rewrite (bytes_ints _ Hbytes).
  (* and this one message is appended to what was sent *)
  reflexivity.
Qed.

Lemma KPrntScrn_frame_witness :
  KPrntScrn 0 (str_of "Kick") 0 [] =
  (Ok (), [] ++ [[0xF0; 0x00; 0x21; 0x09; 0x00; 0x00; 0x44; 0x43; 0x01; 0x00;
                  0x48; 0x00] ++ [0] ++ [0x4B; 0x69; 0x63; 0x6B] ++ [0xF7]]).
Proof.
  apply (KPrntScrn_frame 0 (str_of "Kick") 0 []).
  - unfold is_byte. lia.
  - apply (bool_decide_unpack _). vm_compute. exact I.
Defined.

(** C5 fails as stated: slot 3 is a byte and the one-character text made
    of the euro sign (code point 8364) is a text, yet no message is
    produced; the conversion to bytes raises and nothing is sent. *)
Lemma KPrntScrn_euro_sign_no_frame :
  is_byte 3 ∧
  KPrntScrn 3 [8364%N] 0 [] = (Raise ValueError, []) ∧
  KPrntScrn 3 [8364%N] 0 [] ≠
    (Ok (), [[0xF0; 0x00; 0x21; 0x09; 0x00; 0x00; 0x44; 0x43; 0x01; 0x00;
              0x48; 0x00] ++ [3] ++ [8364] ++ [0xF7]]).
Proof.
  split; [unfold is_byte; lia|]. split; [by vm_compute|].
  vm_compute. discriminate.
Qed.

(** C1, as the code has it: for every slot byte and every text whose
    retained characters (the first 11) have code points up to 255, a text
    of exactly 10 characters is sent in full, a text of exactly 11
    characters is sent in full, and a text of 12 or more characters is
    sent as its first 11 characters only, without any exception; and for
    every slot and text whatsoever, an 11-character text and any longer
    text that starts with it give the same outcome, byte for byte. *)
Theorem KPrntScrn_truncation_boundary (trkn : Z) (word : str)
    (delaytime : Z) (s : sink) :
  (is_byte trkn → Forall (λ c, ord c ≤ 255) (take 11 word) →
   (length word = 10%nat ∨ length word = 11%nat →
    KPrntScrn trkn word delaytime s =
    (Ok (), s ++ [display_header ++ [trkn] ++ (ord <$> word) ++ [0xF7]])) ∧
   ((12 ≤ length word)%nat →
    KPrntScrn trkn word delaytime s =
    (Ok (), s ++ [display_header ++ [trkn] ++ (ord <$> take 11 word)
                    ++ [0xF7]]) ∧
    length (ord <$> take 11 word) = 11%nat)) ∧
  (length word = 11%nat →
   ∀ rest : str,
     KPrntScrn trkn (word ++ rest) delaytime s =
     KPrntScrn trkn word delaytime s).
Proof.
  split.
  - intros Ht Hw.
    pose proof (KPrntScrn_ok trkn word delaytime s Ht Hw) as Hrun.
    unfold display_layout, retained in Hrun. split.
    + intros Hlen. rewrite take_ge in Hrun by lia. exact Hrun.
    + intros Hlen. split; [exact Hrun|].
      rewrite length_fmap, length_take. lia.
  - intros Hlen rest.
    rewrite (KPrntScrn_retained trkn (word ++ rest)).
    unfold retained. rewrite take_app_length'; done.
Qed.

Lemma KPrntScrn_truncation_boundary_witness :
  KPrntScrn 3 (str_of "HELLOWORLD!") 0 [] =
    (Ok (), [] ++ [display_header ++ [3] ++ (ord <$> str_of "HELLOWORLD!")
                     ++ [0xF7]]) ∧
  KPrntScrn 3 (str_of "HELLOWORLD!" ++ str_of "!") 0 [] =
    KPrntScrn 3 (str_of "HELLOWORLD!") 0 [].
Proof.
  destruct (KPrntScrn_truncation_boundary 3 (str_of "HELLOWORLD!") 0 [])
    as [Hlatin Hlonger].
  destruct Hlatin as [Hfull _].
  - unfold is_byte. lia.
  - apply (bool_decide_unpack _). vm_compute. exact I.
  - split.
    + apply Hfull. right. reflexivity.
    + apply Hlonger. reflexivity.
Defined.

(** C1 fails as stated: this text has exactly 10 characters, the last one
    the euro sign (code point 8364); it is not sent in full, nor at all:
    the call raises. *)
Lemma KPrntScrn_ten_chars_refused :
  length (str_of "HELLOWORL" ++ [8364%N]) = 10%nat ∧
  KPrntScrn 0 (str_of "HELLOWORL" ++ [8364%N]) 0 [] = (Raise ValueError, []) ∧
  KPrntScrn 0 (str_of "HELLOWORL" ++ [8364%N]) 0 [] ≠
    (Ok (), [display_header ++ [0]
               ++ (ord <$> str_of "HELLOWORL" ++ [8364%N]) ++ [0xF7]]).
Proof.
  split; [reflexivity|]. split; [by vm_compute|].
  vm_compute. discriminate.
Qed.

(** C8, as the code has it: for every text with a character of code point
    above 255 among its retained characters (the first 11), and every
    slot, [KPrntScrn] fails when the message is converted to bytes
    ([ValueError], the form the non-encodable-character error takes in
    this code), before [device.midiOutSysex] is reached: nothing is
    sent. *)
Theorem KPrntScrn_non_encodable_retained (trkn : Z) (word : str)
    (delaytime : Z) (s : sink) :
  Exists (λ c, 255 < ord c) (take 11 word) →
  KPrntScrn trkn word delaytime s = (Raise ValueError, s) ∧
  sent (KPrntScrn trkn word delaytime) s = s.
Proof.
  intros Hex.
  assert (Hrun : KPrntScrn trkn word delaytime s = (Raise ValueError, s)).
  { apply KPrntScrn_raise. eapply Exists_impl; [exact Hex|].
    intros c Hc. unfold latin1. simpl in Hc. lia. }
  split; [exact Hrun|]. unfold sent. by rewrite Hrun.
Qed.

Lemma KPrntScrn_non_encodable_retained_witness :
  KPrntScrn 3 (str_of "Caf" ++ [0x301%N]) 0 [] = (Raise ValueError, []) ∧
  sent (KPrntScrn 3 (str_of "Caf" ++ [0x301%N]) 0) [] = [].
Proof.
  apply (KPrntScrn_non_encodable_retained 3 (str_of "Caf" ++ [0x301%N]) 0 []).
  apply (bool_decide_unpack _). vm_compute. exact I.
Defined.

(** C8 fails as stated: this 12-character text contains the euro sign
    (code point 8364) as its last character, yet the call succeeds and the
    message with the first 11 characters is handed to the device. *)
Lemma KPrntScrn_dropped_character_sent :
  Exists (λ c, 255 < ord c) (str_of "HELLOWORLD!" ++ [8364%N]) ∧
  KPrntScrn 3 (str_of "HELLOWORLD!" ++ [8364%N]) 0 [] =
    (Ok (), [[0xF0; 0x00; 0x21; 0x09; 0x00; 0x00; 0x44; 0x43; 0x01; 0x00;
              0x48; 0x00; 3;
              0x48; 0x45; 0x4C; 0x4C; 0x4F; 0x57; 0x4F; 0x52; 0x4C; 0x44;
              0x21; 0xF7]]).
Proof.
  split.
  - apply (bool_decide_unpack _). vm_compute. exact I.
  - by vm_compute.
Qed.

(** * Beyond the happy path *)

(** ** Conversion to bytes, read backwards *)

Lemma byte_of_ok_inv v b : byte_of v = Ok b → v = PyInt b ∧ is_byte b.
Proof.
  destruct v as [z| |]; simpl; try done.
  case_decide; [|done]. by intros [= <-].
Qed.

Lemma byte_of_raise_inv v e :
  byte_of v = Raise e → e = TypeError ∨ e = ValueError.
Proof.
  destruct v as [z| |]; simpl; try (intros [= <-]; by left).
  case_decide; [done|]. intros [= <-]. by right.
Qed.

Lemma bytes_ok_inv (l : list pyval) (bs : frame) :
  bytes l = Ok bs → l = PyInt <$> bs ∧ Forall is_byte bs.
Proof.
  revert bs. induction l as [|v l IH]; intros bs; simpl.
  - intros [= <-]. by split.
  - destruct (byte_of v) as [b|] eqn:Hv; [|done].
    apply byte_of_ok_inv in Hv as [-> Hb].
    destruct (bytes l) as [bs'|]; [|done]. intros [= <-].
    destruct (IH bs' eq_refl) as [-> ?]. split; [done|]. by constructor.
Qed.

Lemma bytes_raise_inv (l : list pyval) (e : exn) :
  bytes l = Raise e → e = TypeError ∨ e = ValueError.
Proof.
  induction l as [|v l IH]; simpl; [done|].
  destruct (byte_of v) as [b|e'] eqn:Hv.
  - destruct (bytes l) as [bs|e'']; [done|]. intros [= <-]. by apply IH.
  - intros [= <-]. by eapply byte_of_raise_inv.
Qed.

Lemma bytes_ints_inv (l : list Z) (bs : frame) :
  bytes (PyInt <$> l) = Ok bs → bs = l ∧ Forall is_byte l.
Proof.
  intros Hbs. apply bytes_ok_inv in Hbs as [Heq Hall].
  apply (inj (fmap PyInt)) in Heq as ->. by split.
Qed.

(** ** One message or none *)

Lemma keeps_wire_send_converted (r : result frame) :
  (∀ msg, r = Ok msg → frame_ok msg) → keeps_wire (send_converted r).
Proof.
  intros Hok s. unfold sent, send_converted.
  destruct r as [msg|e]; simpl.
  - exists [msg]. split; [done|]. apply Forall_singleton. by apply Hok.
  - exists []. split; [by rewrite app_nil_r | by apply Forall_nil].
Qed.

Lemma keeps_wire_ext {A} (m m' : py A) :
  (∀ s, m s = m' s) → keeps_wire m' → keeps_wire m.
Proof. intros Hext Hm s. unfold sent. rewrite Hext. apply Hm. Qed.

(** Sequencing keeps the property, also when the first call raises. *)
Lemma keeps_wire_bind {A B} (m : py A) (k : A → py B) :
  keeps_wire m → (∀ a, keeps_wire (k a)) → keeps_wire (m ≫= k).
Proof.
  intros Hm Hk s. destruct (Hm s) as (new1 & Hs1 & Hok1). unfold sent in *.
  unfold mbind, py_bind. destruct (m s) as [[a|e] s1]; simpl in *.
  - destruct (Hk a s1) as (new2 & Hs2 & Hok2). unfold sent in Hs2.
    exists (new1 ++ new2). rewrite Hs2, Hs1, (assoc_L (++)).
    split; [done|]. by apply Forall_app.
  - by exists new1.
Qed.

(** ** [dataOut] *)

Lemma dataOut_run data1 data2 s :
  dataOut data1 data2 s =
  match bytes [PyInt 240; PyInt 191; data1; data2] with
  | Ok msg => (Ok (), s ++ [msg])
  | Raise e => (Raise e, s)
  end.
Proof.
  unfold dataOut, bytearray, bytes_of_bytearray, mbind, py_bind, lift.
  by destruct (bytes _).
Qed.

Lemma dataOut_ok_inv data1 data2 s s' :
  dataOut data1 data2 s = (Ok (), s') →
  ∃ d1 d2, data1 = PyInt d1 ∧ data2 = PyInt d2 ∧ is_byte d1 ∧ is_byte d2 ∧
           s' = s ++ [[0xF0; 0xBF; d1; d2]].
Proof.
  rewrite dataOut_run.
  destruct (bytes _) as [msg|e] eqn:Hmsg; [|done]. intros [= <-].
  apply bytes_ok_inv in Hmsg as [Hl Hall].
  destruct msg as [|a [|b [|d1 [|d2 [|? ?]]]]]; try done.
  injection Hl as <- <- -> ->.
  apply Forall_cons in Hall as [_ Hall]. apply Forall_cons in Hall as [_ Hall].
  apply Forall_cons in Hall as [Hd1 Hall]. apply Forall_cons in Hall as [Hd2 _].
  by exists d1, d2.
Qed.

Lemma dataOut_raise_inv data1 data2 s e s' :
  dataOut data1 data2 s = (Raise e, s') →
  s' = s ∧ (e = TypeError ∨ e = ValueError).
Proof.
  rewrite dataOut_run.
  destruct (bytes _) as [msg|e'] eqn:Hmsg; [done|]. intros [= <- <-].
  split; [done|]. by eapply bytes_raise_inv.
Qed.

(** X1: [dataOut] sends its four bytes exactly when both data values are
    integers of 0..255; otherwise it raises [TypeError] or [ValueError] and
    the device receives nothing. *)
Theorem dataOut_outcome (data1 data2 : pyval) (s : sink) :
  (∀ s', dataOut data1 data2 s = (Ok (), s') ↔
         ∃ d1 d2, data1 = PyInt d1 ∧ data2 = PyInt d2 ∧
                  is_byte d1 ∧ is_byte d2 ∧
                  s' = s ++ [[0xF0; 0xBF; d1; d2]]) ∧
  (∀ e s', dataOut data1 data2 s = (Raise e, s') →
           s' = s ∧ (e = TypeError ∨ e = ValueError)).
Proof.
  split.
  - intros s'. split.
    + (* a message went out: both values converted *)
      apply dataOut_ok_inv.
    + (* both values convert: the message goes out *)
      intros (d1 & d2 & -> & -> & Hd1 & Hd2 & ->). by apply dataOut_bytes.
  - (* the conversion is the only step that can raise, and it comes first *)
    intros e s'. apply dataOut_raise_inv.
Qed.

Lemma dataOut_outcome_witness :
  ∃ d1 d2, PyInt 2 = PyInt d1 ∧ PyInt 1 = PyInt d2 ∧
           is_byte d1 ∧ is_byte d2 ∧
           [[0xF0; 0xBF; 0x02; 0x01]] = [] ++ [[0xF0; 0xBF; d1; d2]].
Proof.
  apply (proj1 (proj1 (dataOut_outcome (PyInt 2) (PyInt 1) []) _)).
  by vm_compute.
Defined.

(** ** [buttonSetLight] *)

Lemma lightModes_get (lightMode : Z) :
  dict_get ({[ 0 := PyInt 0; 1 := PyInt 1 ]} : gmap Z pyval) lightMode =
  if decide (lightMode = 0 ∨ lightMode = 1) then PyInt lightMode else PyNone.
Proof.
  unfold dict_get. case_decide as Hl.
  - destruct Hl as [-> | ->]; by vm_compute.
  - rewrite lookup_insert_ne by (intros <-; apply Hl; by left).
    rewrite lookup_singleton_ne by (intros <-; apply Hl; by right). done.
Qed.

(** X2: [buttonSetLight] has two outcomes only: for an entry of [buttons] that
    is a single value and a light mode 0 or 1 it sends one four-byte
    message; in every other case (unknown name, encoder motion event, any
    other light mode) it raises [TypeError] and sends nothing. *)
Theorem buttonSetLight_outcome (buttonName : string) (lightMode : Z)
    (s : sink) :
  (∃ data1, buttons !! buttonName = Some (PyInt data1) ∧
            (lightMode = 0 ∨ lightMode = 1) ∧
            buttonSetLight buttonName lightMode s =
            (Ok (), s ++ [[0xF0; 0xBF; data1; lightMode]])) ∨
  ((¬ (∃ data1, buttons !! buttonName = Some (PyInt data1)) ∨
    ¬ (lightMode = 0 ∨ lightMode = 1)) ∧
   buttonSetLight buttonName lightMode s = (Raise TypeError, s)).
Proof.
  unfold buttonSetLight. rewrite lightModes_get.
  destruct (buttons !! buttonName) as [v|] eqn:Hb.
  - pose proof (buttons_entries _ _ Hb) as Hentry.
    assert (Hget : dict_get buttons buttonName = v)
      by (unfold dict_get; by rewrite Hb).
    rewrite Hget.
    destruct v as [d1| |l]; simpl in Hentry; [|done|].
    + destruct Hentry as [Hd1 _]. case_decide as Hl.
      * left. exists d1. split; [done|]. split; [done|].
        destruct Hl as [-> | ->]; by apply dataOut_bytes.
      * right. split; [by right|].
        rewrite dataOut_run. cbn [bytes].
        by rewrite !byte_of_int by (done || unfold is_byte; lia).
    + right. split; [left; by intros [d1 [= ]]|]. by apply dataOut_refused.
  - right. split; [left; by intros [d1 [= ]]|].
    assert (Hget : dict_get buttons buttonName = PyNone)
      by (unfold dict_get; by rewrite Hb).
    rewrite Hget. by apply dataOut_refused.
Qed.

(** No two entries of [buttons], and no two of [mixerinfo_types], share a
    value. *)
Lemma list_to_map_distinct (l : list (string * pyval)) k1 k2 v :
  distinct_values l →
  (list_to_map l : gmap string pyval) !! k1 = Some v →
  (list_to_map l : gmap string pyval) !! k2 = Some v →
  k1 = k2.
Proof.
  intros Hall H1 H2.
  apply elem_of_list_to_map_2 in H1, H2.
  pose proof (proj1 (Forall_forall _ _) Hall _ H1) as Hall1.
  by apply (proj1 (Forall_forall _ _) Hall1 _ H2).
Qed.

Lemma buttons_distinct k1 k2 v :
  buttons !! k1 = Some v → buttons !! k2 = Some v → k1 = k2.
Proof.
  apply list_to_map_distinct.
  apply (bool_decide_unpack _). by vm_compute.
Qed.

Lemma mixerinfo_types_distinct k1 k2 v :
  mixerinfo_types !! k1 = Some v → mixerinfo_types !! k2 = Some v → k1 = k2.
Proof.
  apply list_to_map_distinct.
  apply (bool_decide_unpack _). by vm_compute.
Qed.

Lemma buttonSetLight_ok_inv buttonName lightMode s s' :
  buttonSetLight buttonName lightMode s = (Ok (), s') →
  ∃ data1, buttons !! buttonName = Some (PyInt data1) ∧
           s' = s ++ [[0xF0; 0xBF; data1; lightMode]].
Proof.
  unfold buttonSetLight. rewrite lightModes_get. intros Hrun.
  apply dataOut_ok_inv in Hrun as (d1 & d2 & Hget & Hl & _ & _ & ->).
  case_decide; [|done]. injection Hl as <-.
  exists d1. split; [|done].
  unfold dict_get in Hget.
  destruct (buttons !! buttonName) as [v|]; simpl in Hget;
    [by rewrite Hget | discriminate Hget].
Qed.

(** X3: The message tells the button and the light mode: two calls of
    [buttonSetLight] that send the same message were made with the same
    name and the same light mode. *)
Theorem buttonSetLight_injective (b1 b2 : string) (lm1 lm2 : Z)
    (s s' : sink) :
  buttonSetLight b1 lm1 s = (Ok (), s') →
  buttonSetLight b2 lm2 s = (Ok (), s') →
  b1 = b2 ∧ lm1 = lm2.
Proof.
  intros H1 H2.
  apply buttonSetLight_ok_inv in H1 as (d1 & Hb1 & ->).
  apply buttonSetLight_ok_inv in H2 as (d2 & Hb2 & Heq).
  apply app_inv_head in Heq. injection Heq as <- <-.
  split; [|done]. by eapply buttons_distinct.
Qed.

Lemma buttonSetLight_injective_witness :
  "STOP" = "STOP" ∧ 1 = 1.
Proof.
  apply (buttonSetLight_injective "STOP" "STOP" 1 1 [] [[0xF0; 0xBF; 20; 1]]);
    by vm_compute.
Defined.

(** ** [mixerSendInfo] *)

(** The integers before conversion: preamble, identifier, value, track,
    text bytes, terminator. *)
Lemma mixerSendInfo_run info_type trackID kw s :
  mixerSendInfo info_type trackID kw s =
  match from_option encode_utf8 (Ok []) (kw_info kw) with
  | Ok bs =>
      match bytes ((PyInt <$> [240; 0; 33; 9; 0; 0; 68; 67; 1; 0]) ++
                   dict_get mixerinfo_types info_type ::
                   (PyInt <$> [default 0 (kw_value kw); trackID] ++ bs ++ [247]))
      with
      | Ok msg => (Ok (), s ++ [msg])
      | Raise e => (Raise e, s)
      end
  | Raise e => (Raise e, s)
  end.
Proof.
  unfold mixerSendInfo.
  destruct (kw_info kw) as [info|]; simpl from_option.
  - destruct (encode_utf8 info) as [bs|e]; [|done].
    rewrite bind_lift_ok.
    replace (bytes ((PyInt <$> [240; 0; 33; 9; 0; 0; 68; 67; 1; 0]) ++ _))
      with (bytes
        ([PyInt 240; PyInt 0; PyInt 33; PyInt 9; PyInt 0; PyInt 0; PyInt 68;
          PyInt 67; PyInt 1; PyInt 0; dict_get mixerinfo_types info_type;
          PyInt (default 0 (kw_value kw)); PyInt trackID]
         ++ (PyInt <$> bs) ++ [PyInt 247]))
      by (by rewrite !fmap_app).
    unfold mbind, py_bind, lift. by destruct (bytes _).
  - unfold mbind, py_bind, lift. by destruct (bytes _).
Qed.

Lemma mixerSendInfo_ok_inv info_type trackID kw s s' :
  mixerSendInfo info_type trackID kw s = (Ok (), s') →
  ∃ identifierByte bs,
    mixerinfo_types !! info_type = Some (PyInt identifierByte) ∧
    is_byte trackID ∧
    is_byte (default 0 (kw_value kw)) ∧
    from_option encode_utf8 (Ok []) (kw_info kw) = Ok bs ∧
    s' = s ++ [[0xF0; 0x00; 0x21; 0x09; 0x00; 0x00; 0x44; 0x43; 0x01;
                0x00; identifierByte; default 0 (kw_value kw); trackID]
               ++ bs ++ [0xF7]].
Proof.
  rewrite mixerSendInfo_run.
  destruct (from_option encode_utf8 (Ok []) (kw_info kw)) as [bs|e0] eqn:Hbs;
    [|done].
  destruct (bytes _) as [msg|e1] eqn:Hmsg; [|done].
  intros [= <-].
  rewrite bytes_app, bytes_ints in Hmsg by literal_bytes.
  cbn [bytes] in Hmsg.
  destruct (byte_of (dict_get mixerinfo_types info_type)) as [id|] eqn:Hid;
    [|done].
  apply byte_of_ok_inv in Hid as [Hget Hidb].
  destruct (bytes (PyInt <$> _)) as [tl|] eqn:Htl; [|done].
  apply bytes_ints_inv in Htl as [-> Hall].
  injection Hmsg as <-.
  apply Forall_cons in Hall as [Hv Hall]. apply Forall_cons in Hall as [Ht _].
  exists id, bs.
  split; [|split; [done|split; [done|split; [done|reflexivity]]]].
  unfold dict_get in Hget.
  destruct (mixerinfo_types !! info_type) as [v|]; simpl in Hget;
    [by rewrite Hget | discriminate Hget].
Qed.

(** X4: A message goes out only for a kind of [mixerinfo_types], a track and a
    value of 0..255 and a text that UTF-8 can encode, and it is then the
    one message laid out as preamble, identifier, value, track, text
    bytes, 0xF7; a call that raises sends nothing. *)
Theorem mixerSendInfo_outcome (info_type : string) (trackID : Z)
    (kw : kwargs) (s : sink) :
  (∀ s', mixerSendInfo info_type trackID kw s = (Ok (), s') →
         ∃ identifierByte bs,
           mixerinfo_types !! info_type = Some (PyInt identifierByte) ∧
           is_byte trackID ∧
           is_byte (default 0 (kw_value kw)) ∧
           from_option encode_utf8 (Ok []) (kw_info kw) = Ok bs ∧
           s' = s ++ [[0xF0; 0x00; 0x21; 0x09; 0x00; 0x00; 0x44; 0x43; 0x01;
                       0x00; identifierByte; default 0 (kw_value kw); trackID]
                      ++ bs ++ [0xF7]]) ∧
  (∀ e s', mixerSendInfo info_type trackID kw s = (Raise e, s') → s' = s).
Proof.
  split.
  - intros s'. apply mixerSendInfo_ok_inv.
  - (* both steps that can raise come before the port is reached *)
    intros e s'. rewrite mixerSendInfo_run.
    destruct (from_option encode_utf8 (Ok []) (kw_info kw)) as [bs|e0];
      [|by intros [= _ <-]].
    destruct (bytes _) as [msg|e1]; [done | by intros [= _ <-]].
Qed.

Lemma mixerSendInfo_outcome_witness :
  ∃ identifierByte bs,
    mixerinfo_types !! "PAN" = Some (PyInt identifierByte) ∧
    is_byte 4 ∧ is_byte 0 ∧
    encode_utf8 (str_of "50% R") = Ok bs ∧
    [[0xF0; 0x00; 0x21; 0x09; 0x00; 0x00; 0x44; 0x43; 0x01; 0x00; 0x47;
      0x00; 0x04; 0x35; 0x30; 0x25; 0x20; 0x52; 0xF7]] =
    [] ++ [[0xF0; 0x00; 0x21; 0x09; 0x00; 0x00; 0x44; 0x43; 0x01; 0x00;
            identifierByte; 0; 4] ++ bs ++ [0xF7]].
Proof.
  apply (proj1 (mixerSendInfo_outcome "PAN" 4
                  (Kwargs None (Some (str_of "50% R"))) [])).
  by vm_compute.
Defined.

(** X5: A value or a track outside 0..255 makes the conversion to bytes raise
    [ValueError], for every kind of [mixerinfo_types] and every text that
    can be encoded; nothing is sent. *)
Theorem mixerSendInfo_out_of_range (info_type : string) (v : pyval)
    (trackID : Z) (kw : kwargs) (bs : frame) (s : sink) :
  mixerinfo_types !! info_type = Some v →
  from_option encode_utf8 (Ok []) (kw_info kw) = Ok bs →
  ¬ (is_byte (default 0 (kw_value kw)) ∧ is_byte trackID) →
  mixerSendInfo info_type trackID kw s = (Raise ValueError, s).
Proof.
  intros Hk Hbs Hrange.
  pose proof (mixerinfo_types_entries _ _ Hk) as Hid.
  destruct v as [id| |]; try done. simpl in Hid.
  assert (Hget : dict_get mixerinfo_types info_type = PyInt id)
    by (unfold dict_get; by rewrite Hk).
  rewrite mixerSendInfo_run, Hbs, Hget.
  change (PyInt id :: (PyInt <$> ?l)) with (PyInt <$> (id :: l)).
  rewrite <- fmap_app, bytes_ints_raise; [done|].
  apply Exists_app. right. apply Exists_cons. right.
  destruct (decide (is_byte (default 0 (kw_value kw)))) as [Hv|Hv].
  - apply Exists_cons. right. apply Exists_cons. left. tauto.
  - apply Exists_cons. by left.
Qed.

Lemma mixerSendInfo_out_of_range_witness :
  mixerSendInfo "VOLUME" 3 (Kwargs (Some 256) None) [] =
    (Raise ValueError, []) ∧
  mixerSendInfo "IS_SOLO" (-1) (Kwargs (Some 1) None) [] =
    (Raise ValueError, []).
Proof.
  split.
  - apply (mixerSendInfo_out_of_range "VOLUME" (PyInt 70) 3
             (Kwargs (Some 256) None) [] []);
      [by vm_compute | done | unfold is_byte; simpl; lia].
  - apply (mixerSendInfo_out_of_range "IS_SOLO" (PyInt 68) (-1)
             (Kwargs (Some 1) None) [] []);
      [by vm_compute | done | unfold is_byte; simpl; lia].
Defined.

(** X6: The message tells everything that was reported: two calls of
    [mixerSendInfo] that send the same message were made for the same
    kind and the same track, with the same value (0 when none is passed)
    and with texts of the same UTF-8 bytes (none when no text is
    passed). *)
Theorem mixerSendInfo_injective (k1 k2 : string) (t1 t2 : Z)
    (kw1 kw2 : kwargs) (s s' : sink) :
  mixerSendInfo k1 t1 kw1 s = (Ok (), s') →
  mixerSendInfo k2 t2 kw2 s = (Ok (), s') →
  k1 = k2 ∧ t1 = t2 ∧
  default 0 (kw_value kw1) = default 0 (kw_value kw2) ∧
  from_option encode_utf8 (Ok []) (kw_info kw1) =
    from_option encode_utf8 (Ok []) (kw_info kw2).
Proof.
  intros H1 H2.
  apply mixerSendInfo_ok_inv in H1 as (id1 & bs1 & Hk1 & _ & _ & Hbs1 & ->).
  apply mixerSendInfo_ok_inv in H2 as (id2 & bs2 & Hk2 & _ & _ & Hbs2 & Heq).
  apply app_inv_head in Heq. injection Heq as <- <- <- Htl.
  apply app_inv_tail in Htl as <-.
  split; [by eapply mixerinfo_types_distinct|].
  split; [done|]. split; [done|]. by rewrite Hbs1, Hbs2.
Qed.

Lemma mixerSendInfo_injective_witness :
  "IS_MUTE" = "IS_MUTE" ∧ 3 = 3 ∧ 1 = 1 ∧
  (Ok [] : result frame) = encode_utf8 [].
Proof.
  apply (mixerSendInfo_injective "IS_MUTE" "IS_MUTE" 3 3
           (Kwargs (Some 1) None) (Kwargs (Some 1) (Some [])) []
           [[0xF0; 0x00; 0x21; 0x09; 0x00; 0x00; 0x44; 0x43; 0x01; 0x00;
             0x43; 0x01; 0x03; 0xF7]]);
    by vm_compute.
Defined.

(** ** [KPrntScrn] *)

Lemma display_layout_bytes_inv trkn word :
  Forall is_byte (display_layout trkn word) →
  is_byte trkn ∧ Forall latin1 (retained word).
Proof.
  unfold display_layout. rewrite !Forall_app.
  intros (_ & Ht & Hw & _). split; [by apply Forall_cons in Ht as [Ht _]|].
  rewrite Forall_fmap in Hw. eapply Forall_impl; [exact Hw|].
  intros c Hc. unfold latin1. simpl in Hc. unfold is_byte in Hc. lia.
Qed.

Lemma KPrntScrn_ok_inv trkn word delaytime s s' :
  KPrntScrn trkn word delaytime s = (Ok (), s') →
  s' = s ++ [display_layout trkn word] ∧
  Forall is_byte (display_layout trkn word).
Proof.
  rewrite KPrntScrn_run.
  destruct (bytes _) as [msg|e] eqn:Hmsg; [|done]. intros [= <-].
  by apply bytes_ints_inv in Hmsg as [-> Hall].
Qed.

(** X8: [KPrntScrn] has two outcomes only: when the slot and the first 11
    characters fit a byte each it sends one message; otherwise it raises
    [ValueError] and sends nothing.  The loops never index past the text,
    so no [IndexError] comes out, whatever the length. *)
Theorem KPrntScrn_outcome (trkn : Z) (word : str) (delaytime : Z)
    (s : sink) :
  (is_byte trkn ∧ Forall latin1 (take 11 word) ∧
   KPrntScrn trkn word delaytime s =
   (Ok (), s ++ [display_header ++ [trkn] ++ (ord <$> take 11 word)
                   ++ [0xF7]])) ∨
  (¬ (is_byte trkn ∧ Forall latin1 (take 11 word)) ∧
   KPrntScrn trkn word delaytime s = (Raise ValueError, s)).
Proof.
  rewrite KPrntScrn_run.
  destruct (decide (Forall is_byte (display_layout trkn word))) as [Hall|Hnot].
  - left. destruct (display_layout_bytes_inv _ _ Hall) as [Ht Hw].
    split; [done|]. split; [done|]. by rewrite bytes_ints.
  - right. split.
    + intros [Ht Hw]. apply Hnot. by apply display_layout_bytes.
    + rewrite bytes_ints_raise; [done|].
      apply (Exists_impl (not ∘ is_byte)); [|done].
      apply not_Forall_Exists; [apply _ | exact Hnot].
Qed.

(** X9: What a message of [KPrntScrn] tells is the slot and the first 11
    characters, and nothing else: after a call that sent a message, a
    second call sends the same message exactly when it has the same slot
    and a text with the same first 11 characters; [delaytime] plays no
    part. *)
Theorem KPrntScrn_same_message (t1 t2 : Z) (w1 w2 : str) (d1 d2 : Z)
    (s s' : sink) :
  KPrntScrn t1 w1 d1 s = (Ok (), s') →
  (KPrntScrn t2 w2 d2 s = (Ok (), s') ↔ t1 = t2 ∧ take 11 w1 = take 11 w2).
Proof.
  intros H1. split.
  - intros H2.
    apply KPrntScrn_ok_inv in H1 as [-> _].
    apply KPrntScrn_ok_inv in H2 as [Heq _].
    apply app_inv_head in Heq. injection Heq as Ht Htl.
    apply app_inv_tail in Htl. split; [done|].
    by apply (inj (fmap ord)) in Htl.
  - intros [<- Htake]. rewrite <- H1, !KPrntScrn_run.
    unfold display_layout, retained. by rewrite Htake.
Qed.

Lemma KPrntScrn_same_message_witness :
  KPrntScrn 2 (str_of "Bass guitar DI") 40 [] =
    (Ok (), [display_header ++ [2] ++ (ord <$> str_of "Bass guitar") ++ [0xF7]])
  ↔ 2 = 2 ∧ take 11 (str_of "Bass guitar 2") = take 11 (str_of "Bass guitar DI").
Proof.
  apply (KPrntScrn_same_message 2 2 (str_of "Bass guitar 2")
           (str_of "Bass guitar DI") 0 40 []).
  by vm_compute.
Defined.

(** X10: A message of [KPrntScrn] is 14 bytes plus one per character, up to 11
    characters: between 14 and 25 bytes whatever the length of the
    text. *)
Theorem KPrntScrn_message_length (trkn : Z) (word : str) (delaytime : Z)
    (s s' : sink) :
  KPrntScrn trkn word delaytime s = (Ok (), s') →
  ∃ msg, s' = s ++ [msg] ∧
         length msg = (14 + length word `min` 11)%nat ∧
         (14 ≤ length msg ≤ 25)%nat.
Proof.
  intros Hrun. apply KPrntScrn_ok_inv in Hrun as [-> _].
  exists (display_layout trkn word). split; [done|].
  unfold display_layout, display_header, retained.
  rewrite !length_app, length_fmap, length_take. cbn [length]. lia.
Qed.

Lemma KPrntScrn_message_length_witness :
  ∃ msg, [[0xF0; 0x00; 0x21; 0x09; 0x00; 0x00; 0x44; 0x43; 0x01; 0x00;
           0x48; 0x00; 0x07; 0xF7]] = [] ++ [msg] ∧
         length msg = (14 + length (@nil N) `min` 11)%nat ∧
         (14 ≤ length msg ≤ 25)%nat.
Proof.
  apply (KPrntScrn_message_length 7 [] 0 []). by vm_compute.
Defined.

(** ASCII text is its own UTF-8 encoding. *)
Lemma encode_utf8_ascii s :
  Forall ascii7 s → encode_utf8 s = Ok (ord <$> s).
Proof.
  induction 1 as [|c s Hc _ IH]; [done|].
  simpl. unfold encode_utf8_char. rewrite decide_True by done. by rewrite IH.
Qed.

(** X11: For a text whose first 11 characters are ASCII, [KPrntScrn] does what
    [mixerSendInfo] does for the kind NAME with that text cut to 11
    characters and no value: the same message, or the same exception when
    the slot is no byte. *)
Theorem KPrntScrn_is_mixer_name (trkn : Z) (word : str) (delaytime : Z)
    (s : sink) :
  Forall ascii7 (take 11 word) →
  KPrntScrn trkn word delaytime s =
  mixerSendInfo "NAME" trkn (Kwargs None (Some (take 11 word))) s.
Proof.
  intros Hascii.
  rewrite KPrntScrn_run, mixerSendInfo_run. simpl from_option.
  rewrite encode_utf8_ascii by done.
  assert (Hname : dict_get mixerinfo_types "NAME" = PyInt 72) by by vm_compute.
  rewrite Hname.
  replace (PyInt <$> display_layout trkn word)
    with ((PyInt <$> [240; 0; 33; 9; 0; 0; 68; 67; 1; 0]) ++
          PyInt 72 :: (PyInt <$> [default 0 (kw_value (Kwargs None (Some (take 11 word)))); trkn]
                         ++ (ord <$> take 11 word) ++ [247])); [done|].
  unfold display_layout, display_header, retained.
  by rewrite !fmap_app.
Qed.

Lemma KPrntScrn_is_mixer_name_witness :
  KPrntScrn 5 (str_of "Lead Vocals Double") 0 [] =
  mixerSendInfo "NAME" 5
    (Kwargs None (Some (take 11 (str_of "Lead Vocals Double")))) [].
Proof.
  apply (KPrntScrn_is_mixer_name 5 (str_of "Lead Vocals Double") 0 []).
  apply (bool_decide_unpack _). by vm_compute.
Defined.

(** ** Text that cannot be encoded *)

(** X7: [mixerSendInfo] with a text raises [UnicodeEncodeError] exactly when
    the text contains a surrogate code point, and then for every kind,
    known or not, and every track and value: the text is encoded before
    anything else is looked at, and nothing is sent. *)
Theorem mixerSendInfo_text_error (info_type : string) (trackID : Z)
    (kw : kwargs) (info : str) (s : sink) :
  kw_info kw = Some info →
  (mixerSendInfo info_type trackID kw s = (Raise UnicodeEncodeError, s) ↔
   Exists surrogate info).
Proof.
  intros Hinfo. rewrite mixerSendInfo_run, Hinfo. simpl from_option.
  pose proof (encode_utf8_outcome info) as Henc.
  destruct (decide (Exists surrogate info)) as [Hex|Hex].
  - by rewrite Henc.
  - destruct Henc as [bs ->]. split; [|done].
    destruct (bytes _) as [msg|e] eqn:Hmsg; [done|].
    intros [= ->]. by apply bytes_raise_inv in Hmsg as [?|?].
Qed.

Lemma mixerSendInfo_text_error_witness :
  mixerSendInfo "NAME" 0 (Kwargs None (Some [0x4B; 0xD83D]%N)) [] =
    (Raise UnicodeEncodeError, []) ↔
  Exists surrogate [0x4B; 0xD83D]%N.
Proof.
  apply (mixerSendInfo_text_error "NAME" 0
           (Kwargs None (Some [0x4B; 0xD83D]%N)) [0x4B; 0xD83D]%N []).
  reflexivity.
Defined.

(** ** What the device sees *)

Lemma bytes_frame_ok (l : list pyval) (msg : frame) :
  head l = Some (PyInt 0xF0) → bytes l = Ok msg → frame_ok msg.
Proof.
  intros Hhd Hmsg. apply bytes_ok_inv in Hmsg as [-> Hall].
  split; [done|]. destruct msg as [|b msg]; [done|].
  simpl in Hhd. by injection Hhd as ->.
Qed.

Lemma dataOut_keeps_wire data1 data2 : keeps_wire (dataOut data1 data2).
Proof.
  apply (keeps_wire_ext _
           (send_converted (bytes [PyInt 240; PyInt 191; data1; data2]))).
  - intros s. apply dataOut_run.
  - apply keeps_wire_send_converted. intros msg. by apply bytes_frame_ok.
Qed.

(** X12: Every function of the module leaves the messages already sent in
    place and adds only whole messages made of bytes 0..255 that start
    with 0xF0, whatever its arguments, whatever was sent before and
    whether it returns or raises; so does any sequence of calls. *)
Theorem module_keeps_wire :
  keeps_wire initiate ∧
  keeps_wire terminate ∧
  keeps_wire restartProtocol ∧
  (∀ data1 data2, keeps_wire (dataOut data1 data2)) ∧
  (∀ buttonName lightMode, keeps_wire (buttonSetLight buttonName lightMode)) ∧
  (∀ trkn word delaytime, keeps_wire (KPrntScrn trkn word delaytime)) ∧
  (∀ info_type trackID kw, keeps_wire (mixerSendInfo info_type trackID kw)) ∧
  (∀ (m : py unit) (k : unit → py unit),
     keeps_wire m → (∀ a, keeps_wire (k a)) → keeps_wire (m ≫= k)).
Proof.
  split; [apply dataOut_keeps_wire|].
  split; [apply dataOut_keeps_wire|].
  split; [apply keeps_wire_bind; [|intros _]; apply dataOut_keeps_wire|].
  split; [apply dataOut_keeps_wire|].
  split; [intros buttonName lightMode; apply dataOut_keeps_wire|].
  split; [|split; [|apply @keeps_wire_bind]].
  - intros trkn word delaytime.
    apply (keeps_wire_ext _
             (send_converted (bytes (PyInt <$> display_layout trkn word)))).
    + intros s. apply KPrntScrn_run.
    + apply keeps_wire_send_converted. intros msg. by apply bytes_frame_ok.
  - intros info_type trackID kw.
    destruct (from_option encode_utf8 (Ok []) (kw_info kw)) as [bs|e] eqn:Hbs.
    + eapply keeps_wire_ext.
      * intros s. rewrite mixerSendInfo_run, Hbs. reflexivity.
      * apply keeps_wire_send_converted. intros msg. by apply bytes_frame_ok.
    + apply (keeps_wire_ext _ (send_converted (Raise e))).
      * intros s. by rewrite mixerSendInfo_run, Hbs.
      * by apply keeps_wire_send_converted.
Qed.
